(** * The TypeScript service configuration snapshot

    A shallow embedding of
    [extensions/typescript-language-features/src/utils/configuration.ts]:
    the log-level enum with its string conversions, the per-field readers
    of [TypeScriptServiceConfiguration], its constructor and the equality
    predicate [isEqualTo].

    The file has two parts: the definitions, in the order of the source,
    and then the properties proved about them. *)

From Stdlib Require Import ZArith Ascii String.
From stdpp Require Import gmap strings list fin_maps.

Set Warnings "-register-all".

(** ** JavaScript numbers

    A number is modelled by the value it denotes.  Every binary64 value is
    NaN, an infinity, the negative zero, an integer, or a non-integral
    dyadic rational, which has exactly one writing [(2k+1) / 2^p] with
    [p >= 1].  The type is wider than binary64 (it bounds neither the
    precision nor the exponent); its operations below are those of
    ECMAScript on the values both have. *)
Module Number.

Inductive t :=
| NaN
| PosInf
| NegInf
| NegZero
| Int (z : Z)                  (* the integer z; [Int 0] is +0 *)
| Frac (k : Z) (p : positive). (* (2k+1) / 2^p, never an integer *)

#[global] Instance eq_dec : EqDecision t.
Proof. solve_decision. Defined.

(** Numerator and binary exponent of a finite number: the value is
    [num / 2^exp]. *)
Definition num (x : t) : Z :=
  match x with
  | Int z => z
  | Frac k _ => 2 * k + 1
  | _ => 0
  end.

Definition exp (x : t) : Z :=
  match x with
  | Frac _ p => Z.pos p
  | _ => 0
  end.

Definition isNaN (x : t) : bool :=
  match x with NaN => true | _ => false end.

(** [x < y] on numbers; false as soon as one side is NaN, and the two
    zeros are not below one another. *)
Definition ltb (x y : t) : bool :=
  match x, y with
  | NaN, _ | _, NaN => false
  | _, NegInf | PosInf, _ => false
  | NegInf, _ | _, PosInf => true
  | _, _ => (num x * 2 ^ exp y <? num y * 2 ^ exp x)%Z
  end.

(** Number::equal, the [===] of two numbers. *)
Definition equal (x y : t) : bool :=
  match x, y with
  | NaN, _ | _, NaN => false
  | NegZero, Int 0 | Int 0, NegZero => true
  | _, _ => bool_decide (x = y)
  end.

(** 2^53 - 1 *)
Definition MAX_SAFE_INTEGER : Z := 9007199254740991.

(** [Number.isSafeInteger] on a value that is a number: finite, integral
    and of magnitude at most [MAX_SAFE_INTEGER]. *)
Definition isSafeInteger (x : t) : bool :=
  match x with
  | Int z => (Z.abs z <=? MAX_SAFE_INTEGER)%Z
  | NegZero => true
  | _ => false
  end.

(** One round of the loop of [Math.max]: [number] replaces [highest]
    when it is +0 against -0, or when it is greater. *)
Definition higher (highest number : t) : t :=
  match number, highest with
  | Int 0, NegZero => Int 0
  | _, _ => if ltb highest number then number else highest
  end.

Fixpoint max_from (highest : t) (args : list t) : t :=
  match args with
  | [] => highest
  | number :: rest =>
      if isNaN number then NaN else max_from (higher highest number) rest
  end.

(** [Math.max(...args)] on arguments that are numbers. *)
Definition max (args : list t) : t := max_from NegInf args.

End Number.

(** ** JavaScript values

    The values a settings store can hold (the JSON values) and
    [undefined].  An object is the list of its properties in insertion
    order. *)
Inductive JsValue :=
| JUndefined
| JNull
| JBool (b : bool)
| JNum (n : Number.t)
| JStr (s : string)
| JArr (items : list JsValue)
| JObj (props : list (string * JsValue)).

(** ToBoolean *)
Definition truthy (v : JsValue) : bool :=
  match v with
  | JUndefined | JNull => false
  | JBool b => b
  | JNum n =>
      match n with
      | Number.NaN | Number.NegZero | Number.Int 0 => false
      | _ => true
      end
  | JStr s => negb (String.eqb s "")
  | JArr _ | JObj _ => true
  end.

(** [v === 'literal'] for a string literal *)
Definition isString (v : JsValue) (literal : string) : bool :=
  match v with
  | JStr s => String.eqb s literal
  | _ => false
  end.

(** What a run ends with.  [Throws] is a JavaScript exception.
    [OutsideType key] is not an event of the program: it marks that the
    value stored under [key] does not inhabit the type the source declares
    for the field it is read into.  TypeScript erases that type and the
    run goes on with the raw value; the development does not follow it
    there. *)
Inductive JsError := TypeError (message : string).

Inductive Outcome (A : Type) :=
| Returns (a : A)
| Throws (e : JsError)
| OutsideType (key : string).
Arguments Returns {A} a.
Arguments Throws {A} e.
Arguments OutsideType {A} key.

#[global] Instance Outcome_ret : MRet Outcome := fun A a => Returns a.

#[global] Instance Outcome_bind : MBind Outcome := fun A B f m =>
  match m with
  | Returns a => f a
  | Throws e => Throws e
  | OutsideType key => OutsideType key
  end.

(** ** String methods

    A string is its sequence of code units, here the 8-bit characters of
    [string]. *)
Module JsString.

Definition isUpper (c : ascii) : bool :=
  let n := nat_of_ascii c in (65 <=? n)%nat && (n <=? 90)%nat.

Definition lowerChar (c : ascii) : ascii :=
  if isUpper c then ascii_of_nat (nat_of_ascii c + 32) else c.

(** [s.toLowerCase()], on the letters A-Z.  (JavaScript also maps
    letters outside ASCII; no such letter is mapped onto a letter that
    occurs in a log-level name.) *)
Fixpoint toLowerCase (s : string) : string :=
  match s with
  | EmptyString => EmptyString
  | String c rest => String (lowerChar c) (toLowerCase rest)
  end.

(** [s.startsWith(searchString)] *)
Fixpoint startsWith (s searchString : string) {struct searchString} : bool :=
  match searchString, s with
  | EmptyString, _ => true
  | String _ _, EmptyString => false
  | String c1 rest1, String c2 rest2 =>
      Ascii.eqb c1 c2 && startsWith rest2 rest1
  end.

(** [s.slice(start)] for [start >= 0] *)
Fixpoint slice (start : nat) (s : string) {struct start} : string :=
  match start, s with
  | O, _ => s
  | S _, EmptyString => EmptyString
  | S start', String _ rest => slice start' rest
  end.

End JsString.

(** ** The log level *)
Module TsServerLogLevel.

Inductive t := Off | Normal | Terse | Verbose.

#[global] Instance eq_dec : EqDecision t.
Proof. solve_decision. Defined.

(** [value.toLowerCase()]: the method exists on strings only.  On [null]
    and [undefined] the property access itself throws; on any other value
    the property is not a function and the call throws.  The messages are
    those of V8. *)
Definition call_toLowerCase (value : JsValue) : Outcome JsValue :=
  match value with
  | JStr s => Returns (JStr (JsString.toLowerCase s))
  | JNull =>
      Throws (TypeError "Cannot read properties of null (reading 'toLowerCase')")
  | JUndefined =>
      Throws
        (TypeError "Cannot read properties of undefined (reading 'toLowerCase')")
  | _ => Throws (TypeError "value.toLowerCase is not a function")
  end.

Definition fromString (value : JsValue) : Outcome t :=
  (* value && value.toLowerCase() *)
  scrutinee ← (if truthy value then call_toLowerCase value
               else Returns value);
  (* switch: the cases are tried in order with [===] *)
  if isString scrutinee "normal" then Returns Normal
  else if isString scrutinee "terse" then Returns Terse
  else if isString scrutinee "verbose" then Returns Verbose
  else (* case 'off': default: *) Returns Off.

Definition toString (value : t) : string :=
  match value with
  | Normal => "normal"
  | Terse => "terse"
  | Verbose => "verbose"
  | Off => "off"
  end.

End TsServerLogLevel.

Inductive SeparateSyntaxServerConfiguration := Disabled | Enabled.

#[global] Instance SeparateSyntaxServerConfiguration_eq_dec :
  EqDecision SeparateSyntaxServerConfiguration.
Proof. solve_decision. Defined.

Module AutoImports.
(** The string literal type ['auto' | 'on' | 'off']. *)
Inductive t := auto | on | off.

#[global] Instance eq_dec : EqDecision t.
Proof. solve_decision. Defined.
End AutoImports.

(** [x === y] on two values of one type whose strict equality is identity
    of values: strings, booleans, enum members, [null], [undefined].
    Numbers have [Number.equal]. *)
Definition strictEq `{EqDecision A} (x y : A) : bool := bool_decide (x = y).
Infix "===" := strictEq (at level 70, no associativity).

(** ** The platform: [os] and [path] of Node.js

    [path.sep], [path.join] and [os.homedir()] are taken from the host the
    extension runs on. *)
Record Host := {
  path_sep : string;
  path_join : list string → string;
  os_homedir : string
}.

(** The [path.posix] module of Node.js, which a POSIX host provides as
    [path], written by segments: [normalizeString] drops the empty and
    the [.] segments and lets a [..] segment remove the segment before
    it. *)
Module posix.

Definition sep : string := "/".

Fixpoint segments (path : string) : list string :=
  match path with
  | EmptyString => [EmptyString]
  | String c rest =>
      if Ascii.eqb c "/" then EmptyString :: segments rest
      else match segments rest with
           | segment :: others => String c segment :: others
           | [] => [String c EmptyString]
           end
  end.

(** [res] holds the segments kept so far, the last one first. *)
Definition resolve (allowAboveRoot : bool) (res : list string)
    (segment : string) : list string :=
  if String.eqb segment "" || String.eqb segment "." then res
  else if String.eqb segment ".." then
    match res with
    | last :: before =>
        if String.eqb last ".."
        then (if allowAboveRoot then ".." :: res else res)
        else before
    | [] => if allowAboveRoot then [".."] else []
    end
  else segment :: res.

Definition normalizeString (path : string) (allowAboveRoot : bool) : string :=
  String.concat "/"
    (rev (fold_left (resolve allowAboveRoot) (segments path) [])).

Definition endsWithSlash (path : string) : bool :=
  match rev (segments path) with
  | last :: _ :: _ => String.eqb last ""
  | _ => false
  end.

Definition normalize (path : string) : string :=
  if String.eqb path "" then "."
  else
    let isAbsolute := JsString.startsWith path "/" in
    let trailingSeparator := endsWithSlash path in
    let path := normalizeString path (negb isAbsolute) in
    if String.eqb path "" then
      if isAbsolute then "/"
      else if trailingSeparator then "./" else "."
    else
      let path := if trailingSeparator then path +:+ "/" else path in
      if isAbsolute then "/" +:+ path else path.

Fixpoint joined (acc : option string) (args : list string) : option string :=
  match args with
  | [] => acc
  | arg :: rest =>
      if String.eqb arg "" then joined acc rest
      else joined (Some match acc with
                        | None => arg
                        | Some j => j +:+ "/" +:+ arg
                        end) rest
  end.

Definition join (args : list string) : string :=
  match joined None args with
  | None => "."
  | Some j => normalize j
  end.

Definition isAbsolute (path : string) : bool :=
  JsString.startsWith path "/".

(** An absolute path written from its segments, and the segments that
    [normalize] keeps as they are. *)
Definition absolutePath (segs : list string) : string :=
  "/" +:+ String.concat "/" segs.

Fixpoint slashFree (s : string) : bool :=
  match s with
  | EmptyString => true
  | String c rest => negb (Ascii.eqb c "/") && slashFree rest
  end.

Definition plainSegment (segment : string) : bool :=
  slashFree segment
  && negb (String.eqb segment "" || String.eqb segment "."
           || String.eqb segment "..").

End posix.

Definition posixHost (homedir : string) : Host :=
  {| path_sep := posix.sep; path_join := posix.join; os_homedir := homedir |}.

(** ** The settings provider *)

(** What [inspect] reports for one key: the value each scope sets,
    [undefined] where the scope does not set the key. *)
Record ConfigurationInspect := {
  defaultValue : JsValue;
  globalValue : JsValue;
  workspaceValue : JsValue
}.

(** Modelled from the spec: [vscode.WorkspaceConfiguration], the layered
    settings provider, whose implementation is not among the sources
    here.  Per key it exposes the merged, effective value ([lookUp],
    [undefined] when no scope sets the key) and the [inspect] operation. *)
Record WorkspaceConfiguration := {
  lookUp : string → JsValue;
  inspect : string → option ConfigurationInspect
}.

(** Modelled from the spec: [configuration.get(section)], the effective
    value of the key. *)
Definition get_ (configuration : WorkspaceConfiguration) (section : string)
    : JsValue :=
  lookUp configuration section.

(** Modelled from the spec: [configuration.get(section, defaultValue)],
    the effective value of the key, and [defaultValue] when that is
    [undefined]. *)
Definition get (configuration : WorkspaceConfiguration) (section : string)
    (defaultValue : JsValue) : JsValue :=
  match lookUp configuration section with
  | JUndefined => defaultValue
  | value => value
  end.

(** Modelled from the spec: a state of the layered provider, one finite
    map per scope, merged with the precedence default < global <
    workspace; [inspect] returns the three scopes side by side. *)
Record Layers := {
  defaultScope : gmap string JsValue;
  globalScope : gmap string JsValue;
  workspaceScope : gmap string JsValue
}.

Definition scopeValue (scope : gmap string JsValue) (key : string) : JsValue :=
  default JUndefined (scope !! key).

Definition orElse (value fallback : JsValue) : JsValue :=
  match value with JUndefined => fallback | _ => value end.

(** Modelled from the spec: the merged value of a key, the workspace
    scope before the global scope before the default scope. *)
Definition effectiveValue (state : Layers) (key : string) : JsValue :=
  orElse (scopeValue (workspaceScope state) key)
    (orElse (scopeValue (globalScope state) key)
       (scopeValue (defaultScope state) key)).

(** Modelled from the spec: [vscode.workspace.getConfiguration()] in a
    given state of the provider. *)
Definition getConfiguration (state : Layers) : WorkspaceConfiguration :=
  {| lookUp := effectiveValue state;
     inspect := fun key =>
       Some {| defaultValue := scopeValue (defaultScope state) key;
               globalValue := scopeValue (globalScope state) key;
               workspaceValue := scopeValue (workspaceScope state) key |} |}.

(** ** [arrays.equals] and [objects.equals] *)

Module arrays.
(** Modelled from the spec: [arrays.equals] of [utils/arrays.ts], which
    is not among the sources here: ordered element-wise sequence
    equality, the elements compared with [itemEquals]. *)
Definition equals {A} (a b : list A) (itemEquals : A → A → bool) : bool :=
  (fix every (a b : list A) {struct a} : bool :=
     match a, b with
     | [], [] => true
     | x :: a', y :: b' => itemEquals x y && every a' b'
     | _, _ => false
     end) a b.
End arrays.

Module objects.

Definition keys (props : list (string * JsValue)) : list string :=
  map fst props.

(** [object[key]] *)
Fixpoint getProperty (props : list (string * JsValue)) (key : string)
    : JsValue :=
  match props with
  | [] => JUndefined
  | (k, value) :: rest =>
      if String.eqb k key then value else getProperty rest key
  end.

Definition includes (l : list string) (key : string) : bool :=
  existsb (String.eqb key) l.

Definition sameKeys (a b : list string) : bool :=
  forallb (includes b) a && forallb (includes a) b.

(** Modelled from the spec: [objects.equals] of [utils/objects.ts],
    which is not among the sources here: deep structural equality that
    holds of two absent values, compares primitives by [===], arrays
    element by element in order, and objects key by key whatever the
    order in which the keys were inserted. *)
Fixpoint equals (one other : JsValue) {struct one} : bool :=
  match one, other with
  | JUndefined, JUndefined => true
  | JNull, JNull => true
  | JBool a, JBool b => a === b
  | JNum a, JNum b => Number.equal a b
  | JStr a, JStr b => a === b
  | JArr a, JArr b => arrays.equals a b (fun x y => equals x y)
  | JObj a, JObj b =>
      sameKeys (keys a) (keys b)
      && forallb (fun prop => equals (snd prop) (getProperty b (fst prop))) a
  | _, _ => false
  end.

End objects.

(** ** The configuration snapshot *)

(** [string | null] is [option string] with [None] for [null]; the watch
    options, declared [protocol.WatchOptions | undefined], are kept as the
    stored value, [JUndefined] when the key is not set. *)
Record TypeScriptServiceConfiguration := {
  locale : option string;
  globalTsdk : option string;
  localTsdk : option string;
  npmLocation : option string;
  tsServerLogLevel : TsServerLogLevel.t;
  tsServerPluginPaths : list string;
  checkJs : bool;
  experimentalDecorators : bool;
  implicitStrictNullChecks : bool;
  implicitStrictFunctionTypes : bool;
  disableAutomaticTypeAcquisition : bool;
  separateSyntaxServer : SeparateSyntaxServerConfiguration;
  enableProjectDiagnostics : bool;
  maxTsServerMemory : Number.t;
  enablePromptUseWorkspaceTsdk : bool;
  watchOptions : JsValue;
  includePackageJsonAutoImports : option AutoImports.t
}.

(** *** Reads at a declared type

    [configuration.get<T>(section, defaultValue)] hands the stored value on
    as a [T] without looking at it.  The reads below return the value when
    it is a [T] and [OutsideType section] otherwise. *)

Definition getBoolean (configuration : WorkspaceConfiguration)
    (section : string) (defaultValue : bool) : Outcome bool :=
  match get configuration section (JBool defaultValue) with
  | JBool b => Returns b
  | _ => OutsideType section
  end.

(** [get<string | null>(section, null)] *)
Definition getStringOrNull (configuration : WorkspaceConfiguration)
    (section : string) : Outcome (option string) :=
  match get configuration section JNull with
  | JNull => Returns None
  | JStr s => Returns (Some s)
  | _ => OutsideType section
  end.

Fixpoint allStrings (section : string) (items : list JsValue)
    : Outcome (list string) :=
  match items with
  | [] => Returns []
  | JStr s :: rest => strings ← allStrings section rest; Returns (s :: strings)
  | _ :: _ => OutsideType section
  end.

(** [get<string[]>(section, [])] *)
Definition getStringArray (configuration : WorkspaceConfiguration)
    (section : string) : Outcome (list string) :=
  match get configuration section (JArr []) with
  | JArr items => allStrings section items
  | _ => OutsideType section
  end.

(** [get<'auto' | 'on' | 'off'>(section)] *)
Definition getAutoImports (configuration : WorkspaceConfiguration)
    (section : string) : Outcome (option AutoImports.t) :=
  let value := get_ configuration section in
  match value with
  | JUndefined => Returns None
  | _ =>
      if isString value "auto" then Returns (Some AutoImports.auto)
      else if isString value "on" then Returns (Some AutoImports.on)
      else if isString value "off" then Returns (Some AutoImports.off)
      else OutsideType section
  end.

(** *** The static readers *)

Fixpoint fixFirstPrefix (host : Host) (inspectValue : string)
    (pathPrefixes : list string) : string :=
  match pathPrefixes with
  | [] => inspectValue
  | pathPrefix :: rest =>
      if JsString.startsWith inspectValue pathPrefix
      then path_join host
             [os_homedir host;
              JsString.slice (String.length pathPrefix) inspectValue]
      else fixFirstPrefix host inspectValue rest
  end.

Definition fixPathPrefixes (host : Host) (inspectValue : string) : string :=
  let pathPrefixes := ["~" +:+ path_sep host] in
  fixFirstPrefix host inspectValue pathPrefixes.

Definition extractGlobalTsdk (host : Host)
    (configuration : WorkspaceConfiguration) : option string :=
  match inspect configuration "typescript.tsdk" with
  | Some result =>
      match globalValue result with
      | JStr value (* typeof inspect.globalValue === 'string' *) =>
          Some (fixPathPrefixes host value)
      | _ => None
      end
  | None => None
  end.

Definition extractLocalTsdk (host : Host)
    (configuration : WorkspaceConfiguration) : option string :=
  match inspect configuration "typescript.tsdk" with
  | Some result =>
      match workspaceValue result with
      | JStr value (* typeof inspect.workspaceValue === 'string' *) =>
          Some (fixPathPrefixes host value)
      | _ => None
      end
  | None => None
  end.

Definition readTsServerLogLevel (configuration : WorkspaceConfiguration)
    : Outcome TsServerLogLevel.t :=
  let setting := get configuration "typescript.tsserver.log" (JStr "off") in
  TsServerLogLevel.fromString setting.

Definition readTsServerPluginPaths (configuration : WorkspaceConfiguration)
    : Outcome (list string) :=
  getStringArray configuration "typescript.tsserver.pluginPaths".

Definition readCheckJs (configuration : WorkspaceConfiguration) : Outcome bool :=
  getBoolean configuration "javascript.implicitProjectConfig.checkJs" false.

Definition readExperimentalDecorators (configuration : WorkspaceConfiguration)
    : Outcome bool :=
  getBoolean configuration
    "javascript.implicitProjectConfig.experimentalDecorators" false.

Definition readImplicitStrictNullChecks (configuration : WorkspaceConfiguration)
    : Outcome bool :=
  getBoolean configuration "js/ts.implicitProjectConfig.strictNullChecks" true.

Definition readImplicitStrictFunctionTypes
    (configuration : WorkspaceConfiguration) : Outcome bool :=
  getBoolean configuration "js/ts.implicitProjectConfig.strictFunctionTypes" true.

Definition readNpmLocation (configuration : WorkspaceConfiguration)
    : Outcome (option string) :=
  getStringOrNull configuration "typescript.npm".

Definition readDisableAutomaticTypeAcquisition
    (configuration : WorkspaceConfiguration) : Outcome bool :=
  getBoolean configuration "typescript.disableAutomaticTypeAcquisition" false.

Definition extractLocale (configuration : WorkspaceConfiguration)
    : Outcome (option string) :=
  getStringOrNull configuration "typescript.locale".

Definition readUseSeparateSyntaxServer (configuration : WorkspaceConfiguration)
    : SeparateSyntaxServerConfiguration :=
  let value :=
    get configuration "typescript.tsserver.useSeparateSyntaxServer" (JBool true) in
  match value with
  | JBool true (* value === true *) => Enabled
  | _ => Disabled
  end.

Definition readEnableProjectDiagnostics (configuration : WorkspaceConfiguration)
    : Outcome bool :=
  getBoolean configuration
    "typescript.tsserver.experimental.enableProjectDiagnostics" false.

Definition readWatchOptions (configuration : WorkspaceConfiguration) : JsValue :=
  get_ configuration "typescript.tsserver.watchOptions".

Definition readIncludePackageJsonAutoImports
    (configuration : WorkspaceConfiguration) : Outcome (option AutoImports.t) :=
  getAutoImports configuration
    "typescript.preferences.includePackageJsonAutoImports".

(** [Number.isSafeInteger(value)]: false of every value that is not a
    number. *)
Definition Number_isSafeInteger (value : JsValue) : bool :=
  match value with
  | JNum n => Number.isSafeInteger n
  | _ => false
  end.

Definition readMaxTsServerMemory (configuration : WorkspaceConfiguration)
    : Number.t :=
  let defaultMaxMemory := Number.Int 3072 in
  let minimumMaxMemory := Number.Int 128 in
  let memoryInMB :=
    get configuration "typescript.tsserver.maxTsServerMemory"
      (JNum defaultMaxMemory) in
  if negb (Number_isSafeInteger memoryInMB) then defaultMaxMemory
  else
    match memoryInMB with
    | JNum n => Number.max [n; minimumMaxMemory]
    | _ => defaultMaxMemory (* not reached: a safe integer is a number *)
    end.

Definition readEnablePromptUseWorkspaceTsdk
    (configuration : WorkspaceConfiguration) : Outcome bool :=
  getBoolean configuration "typescript.enablePromptUseWorkspaceTsdk" false.

(** *** The constructor, field by field in the order of the source

    [vscode.workspace.getConfiguration()] and the host, which the source
    reaches as ambient state, are arguments here. *)
Definition loadFromWorkspace (host : Host)
    (configuration : WorkspaceConfiguration)
    : Outcome TypeScriptServiceConfiguration :=
  locale ← extractLocale configuration;
  let globalTsdk := extractGlobalTsdk host configuration in
  let localTsdk := extractLocalTsdk host configuration in
  npmLocation ← readNpmLocation configuration;
  tsServerLogLevel ← readTsServerLogLevel configuration;
  tsServerPluginPaths ← readTsServerPluginPaths configuration;
  checkJs ← readCheckJs configuration;
  experimentalDecorators ← readExperimentalDecorators configuration;
  implicitStrictNullChecks ← readImplicitStrictNullChecks configuration;
  implicitStrictFunctionTypes ← readImplicitStrictFunctionTypes configuration;
  disableAutomaticTypeAcquisition ←
    readDisableAutomaticTypeAcquisition configuration;
  let separateSyntaxServer := readUseSeparateSyntaxServer configuration in
  enableProjectDiagnostics ← readEnableProjectDiagnostics configuration;
  let maxTsServerMemory := readMaxTsServerMemory configuration in
  enablePromptUseWorkspaceTsdk ← readEnablePromptUseWorkspaceTsdk configuration;
  let watchOptions := readWatchOptions configuration in
  includePackageJsonAutoImports ←
    readIncludePackageJsonAutoImports configuration;
  Returns
    {| locale := locale;
       globalTsdk := globalTsdk;
       localTsdk := localTsdk;
       npmLocation := npmLocation;
       tsServerLogLevel := tsServerLogLevel;
       tsServerPluginPaths := tsServerPluginPaths;
       checkJs := checkJs;
       experimentalDecorators := experimentalDecorators;
       implicitStrictNullChecks := implicitStrictNullChecks;
       implicitStrictFunctionTypes := implicitStrictFunctionTypes;
       disableAutomaticTypeAcquisition := disableAutomaticTypeAcquisition;
       separateSyntaxServer := separateSyntaxServer;
       enableProjectDiagnostics := enableProjectDiagnostics;
       maxTsServerMemory := maxTsServerMemory;
       enablePromptUseWorkspaceTsdk := enablePromptUseWorkspaceTsdk;
       watchOptions := watchOptions;
       includePackageJsonAutoImports := includePackageJsonAutoImports |}.

Definition isEqualTo (this other : TypeScriptServiceConfiguration) : bool :=
  (locale this === locale other)
  && (globalTsdk this === globalTsdk other)
  && (localTsdk this === localTsdk other)
  && (npmLocation this === npmLocation other)
  && (tsServerLogLevel this === tsServerLogLevel other)
  && (checkJs this === checkJs other)
  && (experimentalDecorators this === experimentalDecorators other)
  && (implicitStrictNullChecks this === implicitStrictNullChecks other)
  && (implicitStrictFunctionTypes this === implicitStrictFunctionTypes other)
  && (disableAutomaticTypeAcquisition this
      === disableAutomaticTypeAcquisition other)
  && arrays.equals (tsServerPluginPaths this) (tsServerPluginPaths other)
       strictEq
  && (separateSyntaxServer this === separateSyntaxServer other)
  && (enableProjectDiagnostics this === enableProjectDiagnostics other)
  && Number.equal (maxTsServerMemory this) (maxTsServerMemory other)
  && objects.equals (watchOptions this) (watchOptions other)
  && (enablePromptUseWorkspaceTsdk this === enablePromptUseWorkspaceTsdk other)
  && (includePackageJsonAutoImports this
      === includePackageJsonAutoImports other).

(** ** Notions the properties are stated with *)

(** A value with the insertion order of its object keys forgotten: an
    object becomes the finite map from its keys to their values.  The two
    zeros, which [===] does not tell apart, become one. *)
Inductive Tree :=
| TUndefined
| TNull
| TBool (b : bool)
| TNum (n : Number.t)
| TStr (s : string)
| TArr (items : list Tree)
| TObj (props : gmap string Tree).

Definition oneZero (n : Number.t) : Number.t :=
  match n with Number.NegZero => Number.Int 0 | _ => n end.

Fixpoint unordered (v : JsValue) : Tree :=
  match v with
  | JUndefined => TUndefined
  | JNull => TNull
  | JBool b => TBool b
  | JNum n => TNum (oneZero n)
  | JStr s => TStr s
  | JArr items => TArr (unordered <$> items)
  | JObj props =>
      TObj (list_to_map ((fun prop => (fst prop, unordered (snd prop))) <$> props))
  end.

Fixpoint uniqueKeys (l : list string) : bool :=
  match l with
  | [] => true
  | key :: rest => negb (objects.includes rest key) && uniqueKeys rest
  end.

(** A value as a parsed settings file can hold it: no object has two
    properties of one key, and no number is NaN (JSON has no writing for
    it). *)
Fixpoint wellFormed (v : JsValue) : bool :=
  match v with
  | JNum n => negb (Number.isNaN n)
  | JArr items => forallb wellFormed items
  | JObj props =>
      uniqueKeys (objects.keys props)
      && forallb (fun prop => wellFormed (snd prop)) props
  | _ => true
  end.

(** What the constructor establishes of a snapshot: the memory bound is an
    integer of at least 128 and the watch options are well formed. *)
Definition atLeast128 (n : Number.t) : bool :=
  match n with
  | Number.Int z => (128 <=? z)%Z
  | _ => false
  end.

Definition constructed (a : TypeScriptServiceConfiguration) : bool :=
  atLeast128 (maxTsServerMemory a) && wellFormed (watchOptions a).

(** The 17 fields of a snapshot, and what it is for two snapshots to
    agree on one of them. *)
Inductive Field :=
| Locale | GlobalTsdk | LocalTsdk | NpmLocation | LogLevel | PluginPaths
| CheckJs | ExperimentalDecorators | ImplicitStrictNullChecks
| ImplicitStrictFunctionTypes | DisableAutomaticTypeAcquisition
| SeparateSyntaxServer | EnableProjectDiagnostics | MaxTsServerMemoryMB
| EnablePromptUseWorkspaceTsdk | WatchOptions | IncludePackageJsonAutoImports.

Definition allFields : list Field :=
  [ Locale; GlobalTsdk; LocalTsdk; NpmLocation; LogLevel; PluginPaths;
    CheckJs; ExperimentalDecorators; ImplicitStrictNullChecks;
    ImplicitStrictFunctionTypes; DisableAutomaticTypeAcquisition;
    SeparateSyntaxServer; EnableProjectDiagnostics; MaxTsServerMemoryMB;
    EnablePromptUseWorkspaceTsdk; WatchOptions; IncludePackageJsonAutoImports ].

Definition agreeOn (f : Field) (a b : TypeScriptServiceConfiguration) : Prop :=
  match f with
  | Locale => locale a = locale b
  | GlobalTsdk => globalTsdk a = globalTsdk b
  | LocalTsdk => localTsdk a = localTsdk b
  | NpmLocation => npmLocation a = npmLocation b
  | LogLevel => tsServerLogLevel a = tsServerLogLevel b
  | PluginPaths => tsServerPluginPaths a = tsServerPluginPaths b
  | CheckJs => checkJs a = checkJs b
  | ExperimentalDecorators => experimentalDecorators a = experimentalDecorators b
  | ImplicitStrictNullChecks =>
      implicitStrictNullChecks a = implicitStrictNullChecks b
  | ImplicitStrictFunctionTypes =>
      implicitStrictFunctionTypes a = implicitStrictFunctionTypes b
  | DisableAutomaticTypeAcquisition =>
      disableAutomaticTypeAcquisition a = disableAutomaticTypeAcquisition b
  | SeparateSyntaxServer => separateSyntaxServer a = separateSyntaxServer b
  | EnableProjectDiagnostics =>
      enableProjectDiagnostics a = enableProjectDiagnostics b
  | MaxTsServerMemoryMB => maxTsServerMemory a = maxTsServerMemory b
  | EnablePromptUseWorkspaceTsdk =>
      enablePromptUseWorkspaceTsdk a = enablePromptUseWorkspaceTsdk b
  | WatchOptions => unordered (watchOptions a) = unordered (watchOptions b)
  | IncludePackageJsonAutoImports =>
      includePackageJsonAutoImports a = includePackageJsonAutoImports b
  end.

(** [s] is [name] written in some letter case: letter by letter, the
    character of [name] or its capital. *)
Definition capital (c : ascii) : ascii :=
  let n := nat_of_ascii c in
  if (97 <=? n)%nat && (n <=? 122)%nat then ascii_of_nat (n - 32) else c.

Fixpoint inSomeCase (s name : string) : Prop :=
  match s, name with
  | EmptyString, EmptyString => True
  | String c s', String d name' => (c = d ∨ c = capital d) ∧ inSomeCase s' name'
  | _, _ => False
  end.

Definition levelNames : list string := ["off"; "normal"; "terse"; "verbose"].

(** ** Sample data *)

Definition num (z : Z) : JsValue := JNum (Number.Int z).

Definition noSettings : Layers :=
  {| defaultScope := ∅; globalScope := ∅; workspaceScope := ∅ |}.

Definition workspaceOnly (key : string) (value : JsValue) : Layers :=
  {| defaultScope := ∅; globalScope := ∅; workspaceScope := {[ key := value ]} |}.

Definition sampleSettings : Layers :=
  {| defaultScope :=
       {[ "typescript.tsserver.useSeparateSyntaxServer" := JBool true;
          "typescript.tsdk" := JStr "node_modules/typescript/lib" ]};
     globalScope :=
       {[ "typescript.tsdk" := JStr "~/sdks/ts";
          "typescript.tsserver.log" := JStr "Verbose";
          "typescript.tsserver.maxTsServerMemory" := num 50;
          "typescript.tsserver.watchOptions" :=
            JObj [("watchFile", JStr "useFsEvents");
                  ("excludeDirectories", JArr [JStr "**/node_modules"])] ]};
     workspaceScope :=
       {[ "typescript.tsserver.pluginPaths" := JArr [JStr "a"; JStr "b"];
          "typescript.preferences.includePackageJsonAutoImports" := JStr "on" ]} |}.

(** The snapshot of a host without any setting, and two ways to vary it. *)
Definition defaultSnapshot : TypeScriptServiceConfiguration :=
  {| locale := None;
     globalTsdk := None;
     localTsdk := None;
     npmLocation := None;
     tsServerLogLevel := TsServerLogLevel.Off;
     tsServerPluginPaths := [];
     checkJs := false;
     experimentalDecorators := false;
     implicitStrictNullChecks := true;
     implicitStrictFunctionTypes := true;
     disableAutomaticTypeAcquisition := false;
     separateSyntaxServer := Enabled;
     enableProjectDiagnostics := false;
     maxTsServerMemory := Number.Int 3072;
     enablePromptUseWorkspaceTsdk := false;
     watchOptions := JUndefined;
     includePackageJsonAutoImports := None |}.

Definition withPluginPaths (paths : list string) : TypeScriptServiceConfiguration :=
  {| locale := None;
     globalTsdk := None;
     localTsdk := None;
     npmLocation := None;
     tsServerLogLevel := TsServerLogLevel.Off;
     tsServerPluginPaths := paths;
     checkJs := false;
     experimentalDecorators := false;
     implicitStrictNullChecks := true;
     implicitStrictFunctionTypes := true;
     disableAutomaticTypeAcquisition := false;
     separateSyntaxServer := Enabled;
     enableProjectDiagnostics := false;
     maxTsServerMemory := Number.Int 3072;
     enablePromptUseWorkspaceTsdk := false;
     watchOptions := JUndefined;
     includePackageJsonAutoImports := None |}.

Definition withWatchOptions (options : JsValue) : TypeScriptServiceConfiguration :=
  {| locale := None;
     globalTsdk := None;
     localTsdk := None;
     npmLocation := None;
     tsServerLogLevel := TsServerLogLevel.Off;
     tsServerPluginPaths := [];
     checkJs := false;
     experimentalDecorators := false;
     implicitStrictNullChecks := true;
     implicitStrictFunctionTypes := true;
     disableAutomaticTypeAcquisition := false;
     separateSyntaxServer := Enabled;
     enableProjectDiagnostics := false;
     maxTsServerMemory := Number.Int 3072;
     enablePromptUseWorkspaceTsdk := false;
     watchOptions := options;
     includePackageJsonAutoImports := None |}.

(** What the constructor returns for [sampleSettings] when the home
    directory is [/home/u]. *)
Definition sampleSnapshot : TypeScriptServiceConfiguration :=
  {| locale := None;
     globalTsdk := Some "/home/u/sdks/ts";
     localTsdk := None;
     npmLocation := None;
     tsServerLogLevel := TsServerLogLevel.Verbose;
     tsServerPluginPaths := ["a"; "b"];
     checkJs := false;
     experimentalDecorators := false;
     implicitStrictNullChecks := true;
     implicitStrictFunctionTypes := true;
     disableAutomaticTypeAcquisition := false;
     separateSyntaxServer := Enabled;
     enableProjectDiagnostics := false;
     maxTsServerMemory := Number.Int 128;
     enablePromptUseWorkspaceTsdk := false;
     watchOptions :=
       JObj [("watchFile", JStr "useFsEvents");
             ("excludeDirectories", JArr [JStr "**/node_modules"])];
     includePackageJsonAutoImports := Some AutoImports.on |}.

(** ** Notions for the properties of the constructor *)

(** The keys the constructor reads through [get], in the order in which
    it reads them; [typescript.tsdk] is read through [inspect]. *)
Definition consumedKeys : list string :=
  [ "typescript.locale";
    "typescript.npm";
    "typescript.tsserver.log";
    "typescript.tsserver.pluginPaths";
    "javascript.implicitProjectConfig.checkJs";
    "javascript.implicitProjectConfig.experimentalDecorators";
    "js/ts.implicitProjectConfig.strictNullChecks";
    "js/ts.implicitProjectConfig.strictFunctionTypes";
    "typescript.disableAutomaticTypeAcquisition";
    "typescript.tsserver.useSeparateSyntaxServer";
    "typescript.tsserver.experimental.enableProjectDiagnostics";
    "typescript.tsserver.maxTsServerMemory";
    "typescript.enablePromptUseWorkspaceTsdk";
    "typescript.tsserver.watchOptions";
    "typescript.preferences.includePackageJsonAutoImports" ].

(** A stored value that is absent or of the type the source declares for
    the read: [boolean], [string | null], [string], [string[]] and
    ['auto' | 'on' | 'off']. *)
Definition booleanOrAbsent (v : JsValue) : bool :=
  match v with JUndefined | JBool _ => true | _ => false end.

Definition stringNullOrAbsent (v : JsValue) : bool :=
  match v with JUndefined | JNull | JStr _ => true | _ => false end.

Definition stringOrAbsent (v : JsValue) : bool :=
  match v with JUndefined | JStr _ => true | _ => false end.

Definition stringArrayOrAbsent (v : JsValue) : bool :=
  match v with
  | JUndefined => true
  | JArr items =>
      forallb (fun item => match item with JStr _ => true | _ => false end) items
  | _ => false
  end.

Definition autoImportsOrAbsent (v : JsValue) : bool :=
  match v with
  | JUndefined => true
  | _ => isString v "auto" || isString v "on" || isString v "off"
  end.

(** Every setting the constructor reads at a declared type is absent or
    of that type. *)
Definition wellTyped (configuration : WorkspaceConfiguration) : bool :=
  stringNullOrAbsent (lookUp configuration "typescript.locale")
  && stringNullOrAbsent (lookUp configuration "typescript.npm")
  && stringOrAbsent (lookUp configuration "typescript.tsserver.log")
  && stringArrayOrAbsent (lookUp configuration "typescript.tsserver.pluginPaths")
  && booleanOrAbsent
       (lookUp configuration "javascript.implicitProjectConfig.checkJs")
  && booleanOrAbsent
       (lookUp configuration
          "javascript.implicitProjectConfig.experimentalDecorators")
  && booleanOrAbsent
       (lookUp configuration "js/ts.implicitProjectConfig.strictNullChecks")
  && booleanOrAbsent
       (lookUp configuration "js/ts.implicitProjectConfig.strictFunctionTypes")
  && booleanOrAbsent
       (lookUp configuration "typescript.disableAutomaticTypeAcquisition")
  && booleanOrAbsent
       (lookUp configuration
          "typescript.tsserver.experimental.enableProjectDiagnostics")
  && booleanOrAbsent
       (lookUp configuration "typescript.enablePromptUseWorkspaceTsdk")
  && autoImportsOrAbsent
       (lookUp configuration
          "typescript.preferences.includePackageJsonAutoImports").

(** [typeof v === 'string'] *)
Definition isAString (v : JsValue) : bool :=
  match v with JStr _ => true | _ => false end.

(** Settings that differ from [sampleSettings] in a key the constructor
    does not read, and in the default scope of [typescript.tsdk]. *)
Definition sampleSettingsAndMore : Layers :=
  {| defaultScope :=
       <[ "typescript.tsdk" := JStr "/opt/typescript/lib" ]>
         (<[ "editor.fontSize" := num 14 ]> (defaultScope sampleSettings));
     globalScope := <[ "editor.tabSize" := num 2 ]> (globalScope sampleSettings);
     workspaceScope := workspaceScope sampleSettings |}.

(** The stored value that a directly read field stands for. *)
Definition nullable (field : option string) : JsValue :=
  match field with Some s => JStr s | None => JNull end.

Definition stringArray (field : list string) : JsValue :=
  JArr (JStr <$> field).

Definition autoImportsValue (field : option AutoImports.t) : JsValue :=
  match field with
  | None => JUndefined
  | Some AutoImports.auto => JStr "auto"
  | Some AutoImports.on => JStr "on"
  | Some AutoImports.off => JStr "off"
  end.

(** The keys the constructor hands on as they are stored, each with the
    default of its read ([undefined] where the read has none). *)
Definition directReads : list (string * JsValue) :=
  [ ("typescript.locale", JNull);
    ("typescript.npm", JNull);
    ("typescript.tsserver.pluginPaths", JArr []);
    ("javascript.implicitProjectConfig.checkJs", JBool false);
    ("javascript.implicitProjectConfig.experimentalDecorators", JBool false);
    ("js/ts.implicitProjectConfig.strictNullChecks", JBool true);
    ("js/ts.implicitProjectConfig.strictFunctionTypes", JBool true);
    ("typescript.disableAutomaticTypeAcquisition", JBool false);
    ("typescript.tsserver.experimental.enableProjectDiagnostics", JBool false);
    ("typescript.enablePromptUseWorkspaceTsdk", JBool false);
    ("typescript.preferences.includePackageJsonAutoImports", JUndefined) ].

(** * Properties *)

(** ** The outcome monad and the provider *)

Lemma bind_Returns {A B} (m : Outcome A) (f : A → Outcome B) (b : B) :
  m ≫= f = Returns b → ∃ a, m = Returns a ∧ f a = Returns b.
Proof. destruct m as [a| |]; simpl; [eauto | discriminate..]. Qed.

Lemma get_undefined configuration section defaultValue :
  lookUp configuration section = JUndefined →
  get configuration section defaultValue = defaultValue.
Proof. unfold get. by intros ->. Qed.

Lemma get_defined configuration section defaultValue :
  lookUp configuration section ≠ JUndefined →
  get configuration section defaultValue = lookUp configuration section.
Proof. unfold get. by destruct (lookUp configuration section). Qed.

(** ** Letter case *)

Ltac each_character c :=
  destruct c as [[] [] [] [] [] [] [] []].

Lemma lowerChar_capital (d : ascii) :
  JsString.isUpper d = false →
  JsString.lowerChar d = d ∧ JsString.lowerChar (capital d) = d.
Proof. each_character d; intros H; split; reflexivity || discriminate H. Qed.

Lemma lowerChar_cases (c : ascii) :
  c = JsString.lowerChar c ∨ c = capital (JsString.lowerChar c).
Proof. each_character c; (left; reflexivity) || (right; reflexivity). Qed.

Lemma toLowerCase_inSomeCase (name s : string) :
  Forall (fun d => JsString.isUpper d = false) (list_ascii_of_string name) →
  inSomeCase s name → JsString.toLowerCase s = name.
Proof.
  revert s. induction name as [|d name IH]; intros [|c s] Hlow Hcase;
    simpl in *; try done.
  inversion Hlow as [|? ? Hd Hname]; subst.
  destruct Hcase as [Hc Hrest].
  destruct (lowerChar_capital d Hd) as [Hsame Hcap].
  f_equal; [by destruct Hc as [-> | ->] | by apply IH].
Qed.

Lemma inSomeCase_toLowerCase (s : string) :
  inSomeCase s (JsString.toLowerCase s).
Proof.
  induction s as [|c s IH]; simpl; [done | split; [apply lowerChar_cases | done]].
Qed.

Lemma levelNames_lower (name : string) :
  name ∈ levelNames →
  Forall (fun d => JsString.isUpper d = false) (list_ascii_of_string name).
Proof.
  unfold levelNames. rewrite !elem_of_cons, elem_of_nil.
  intros [-> | [-> | [-> | [-> | []]]]]; simpl; repeat constructor.
Qed.

(** ** [TsServerLogLevel] *)

Lemma fromString_falsy (value : JsValue) :
  truthy value = false →
  TsServerLogLevel.fromString value = Returns TsServerLogLevel.Off.
Proof.
  intros Hfalsy. unfold TsServerLogLevel.fromString. rewrite Hfalsy. simpl.
  destruct value as [| | |[]| s | |]; try reflexivity; try discriminate Hfalsy.
  destruct s; [reflexivity | discriminate Hfalsy].
Qed.

Lemma fromString_string (s : string) :
  TsServerLogLevel.fromString (JStr s) =
    let lower := JsString.toLowerCase s in
    if String.eqb lower "normal" then Returns TsServerLogLevel.Normal
    else if String.eqb lower "terse" then Returns TsServerLogLevel.Terse
    else if String.eqb lower "verbose" then Returns TsServerLogLevel.Verbose
    else Returns TsServerLogLevel.Off.
Proof. by destruct s. Qed.

Lemma toString_levelNames (level : TsServerLogLevel.t) :
  TsServerLogLevel.toString level ∈ levelNames.
Proof. destruct level; unfold levelNames; set_solver. Qed.

(** C8: [fromString] returns [Off] on [null], on [undefined] and on the
    empty string; none of them reaches [toLowerCase], which would throw on
    the first two. *)
Theorem fromString_degenerate :
  TsServerLogLevel.fromString JNull = Returns TsServerLogLevel.Off
  ∧ TsServerLogLevel.fromString JUndefined = Returns TsServerLogLevel.Off
  ∧ TsServerLogLevel.fromString (JStr "") = Returns TsServerLogLevel.Off
  ∧ TsServerLogLevel.call_toLowerCase JNull
      = Throws
          (TypeError "Cannot read properties of null (reading 'toLowerCase')")
  ∧ TsServerLogLevel.call_toLowerCase JUndefined
      = Throws
          (TypeError
             "Cannot read properties of undefined (reading 'toLowerCase')").
Proof. repeat split; by apply fromString_falsy. Qed.

(** C6: a level name written in any letter case is resolved to its level,
    and serializing that level gives the name back in lower case; a string
    that is no level name in any letter case resolves to [Off], and so
    does a setting that is not set. *)
Theorem logLevel_round_trip :
  (∀ name s, name ∈ levelNames → inSomeCase s name →
     (level ← TsServerLogLevel.fromString (JStr s);
      mret (TsServerLogLevel.toString level)) = Returns name)
  ∧ (∀ level, TsServerLogLevel.toString level ∈ levelNames)
  ∧ (∀ s, (∀ name, name ∈ levelNames → ¬ inSomeCase s name) →
       TsServerLogLevel.fromString (JStr s) = Returns TsServerLogLevel.Off)
  ∧ (∀ configuration,
       lookUp configuration "typescript.tsserver.log" = JUndefined →
       readTsServerLogLevel configuration = Returns TsServerLogLevel.Off).
Proof.
  split; [|split; [|split]].
  - intros name s Hname Hcase.
    pose proof (toLowerCase_inSomeCase name s (levelNames_lower name Hname) Hcase)
      as Hlower.
    rewrite fromString_string, Hlower.
    revert Hname. unfold levelNames. rewrite !elem_of_cons, elem_of_nil.
    by intros [-> | [-> | [-> | [-> | []]]]].
  - apply toString_levelNames.
  - intros s Hnone. rewrite fromString_string. simpl.
    pose proof (inSomeCase_toLowerCase s) as Hcase.
    destruct (String.eqb_spec (JsString.toLowerCase s) "normal") as [E|_].
    { exfalso. apply (Hnone "normal"); [set_solver | by rewrite <- E]. }
    destruct (String.eqb_spec (JsString.toLowerCase s) "terse") as [E|_].
    { exfalso. apply (Hnone "terse"); [set_solver | by rewrite <- E]. }
    destruct (String.eqb_spec (JsString.toLowerCase s) "verbose") as [E|_].
    { exfalso. apply (Hnone "verbose"); [set_solver | by rewrite <- E]. }
    reflexivity.
  - intros configuration Habsent. unfold readTsServerLogLevel.
    by rewrite (get_undefined _ _ _ Habsent).
Qed.

Lemma logLevel_round_trip_witness :
  (level ← TsServerLogLevel.fromString (JStr "VeRbOsE");
   mret (TsServerLogLevel.toString level)) = Returns "verbose"
  ∧ TsServerLogLevel.fromString (JStr "debug") = Returns TsServerLogLevel.Off
  ∧ readTsServerLogLevel (getConfiguration noSettings)
      = Returns TsServerLogLevel.Off.
Proof.
  destruct logLevel_round_trip as (Hname & _ & Hnone & Habsent).
  split; [|split].
  - apply Hname; [set_solver | simpl; tauto].
  - apply Hnone. unfold levelNames. intros name.
    rewrite !elem_of_cons, elem_of_nil.
    intros [-> | [-> | [-> | [-> | []]]]]; simpl; intros H; decompose [and or] H;
      done.
  - apply Habsent. reflexivity.
Defined.

(** ** The separate syntax server *)

(** C2, as the spec words it, fails where the setting is absent: the read
    passes [true] as the default, so no stored value resolves to
    [Enabled], not to [Disabled]. *)
Lemma separateSyntaxServer_absent_enabled :
  lookUp (getConfiguration noSettings)
    "typescript.tsserver.useSeparateSyntaxServer" = JUndefined
  ∧ readUseSeparateSyntaxServer (getConfiguration noSettings) = Enabled
  ∧ readUseSeparateSyntaxServer (getConfiguration noSettings) ≠ Disabled.
Proof. repeat split. discriminate. Qed.

(** C2, amended: the field is [Enabled] exactly when the stored value is
    [true] or the setting is absent (the read defaults to [true]); every
    other stored value yields [Disabled]. *)
Theorem readUseSeparateSyntaxServer_spec
    (configuration : WorkspaceConfiguration) :
  let stored :=
    lookUp configuration "typescript.tsserver.useSeparateSyntaxServer" in
  (readUseSeparateSyntaxServer configuration = Enabled
     ↔ stored = JBool true ∨ stored = JUndefined)
  ∧ (readUseSeparateSyntaxServer configuration = Disabled
     ↔ stored ≠ JBool true ∧ stored ≠ JUndefined).
Proof.
  unfold readUseSeparateSyntaxServer, get. simpl.
  destruct (lookUp configuration _) as [| |[]| | | |];
    intuition congruence.
Qed.

Lemma readUseSeparateSyntaxServer_spec_witness :
  readUseSeparateSyntaxServer (getConfiguration sampleSettings) = Enabled
  ∧ readUseSeparateSyntaxServer
      (getConfiguration
         (workspaceOnly "typescript.tsserver.useSeparateSyntaxServer"
            (JStr "true"))) = Disabled.
Proof.
  split.
  - apply (readUseSeparateSyntaxServer_spec (getConfiguration sampleSettings)).
    left. reflexivity.
  - apply (readUseSeparateSyntaxServer_spec
             (getConfiguration
                (workspaceOnly "typescript.tsserver.useSeparateSyntaxServer"
                   (JStr "true")))).
    split; discriminate.
Defined.

(** ** The memory bound *)

Lemma higher_NegInf (n : Number.t) :
  Number.isNaN n = false → Number.higher Number.NegInf n = n.
Proof. destruct n as [| | | |[]|]; done. Qed.

Lemma higher_Int (a b : Z) :
  Number.higher (Number.Int a) (Number.Int b)
    = if (a <? b)%Z then Number.Int b else Number.Int a.
Proof.
  unfold Number.higher, Number.ltb.
  destruct b; cbn [Number.num Number.exp]; by rewrite ?Z.mul_1_r.
Qed.

Lemma max_with_minimum (n : Number.t) :
  Number.isSafeInteger n = true →
  Number.max [n; Number.Int 128] = Number.Int (Z.max (Number.num n) 128).
Proof.
  destruct n as [| | | |z|]; try discriminate; intros _.
  - reflexivity.
  - unfold Number.max. cbn [Number.max_from Number.isNaN Number.num].
    rewrite higher_NegInf, higher_Int by done.
    destruct (Z.ltb_spec z 128); f_equal; lia.
Qed.

Lemma readMaxTsServerMemory_unsafe configuration :
  Number_isSafeInteger
    (lookUp configuration "typescript.tsserver.maxTsServerMemory") = false →
  readMaxTsServerMemory configuration = Number.Int 3072.
Proof.
  intros Hunsafe. unfold readMaxTsServerMemory, get.
  destruct (lookUp configuration _); try reflexivity.
  simpl in *. by rewrite Hunsafe.
Qed.

Lemma readMaxTsServerMemory_safe configuration n :
  lookUp configuration "typescript.tsserver.maxTsServerMemory" = JNum n →
  Number.isSafeInteger n = true →
  readMaxTsServerMemory configuration
    = Number.Int (Z.max (Number.num n) 128).
Proof.
  intros Hraw Hsafe. unfold readMaxTsServerMemory, get.
  rewrite Hraw. cbn [Number_isSafeInteger]. rewrite Hsafe.
  by apply max_with_minimum.
Qed.

Lemma readMaxTsServerMemory_atLeast128 configuration :
  atLeast128 (readMaxTsServerMemory configuration) = true.
Proof.
  destruct (Number_isSafeInteger
              (lookUp configuration "typescript.tsserver.maxTsServerMemory"))
    eqn:Hsafe.
  - destruct (lookUp configuration _) as [| | |n| | |] eqn:Hraw;
      try discriminate.
    rewrite (readMaxTsServerMemory_safe _ n Hraw Hsafe). simpl. lia.
  - by rewrite readMaxTsServerMemory_unsafe.
Qed.

(** C3: a raw value that is no safe integer (an absent one included)
    resolves to 3072 and a safe integer [z] to [max z 128]; the result is
    always an integer of at least 128, and a safe integer from 128 upwards
    is kept as it is.  At 50, 4096, 3000.5 and the string "3000" the
    results are 128, 4096, 3072 and 3072. *)
Theorem readMaxTsServerMemory_spec :
  (∀ configuration,
     Number_isSafeInteger
       (lookUp configuration "typescript.tsserver.maxTsServerMemory") = false →
     readMaxTsServerMemory configuration = Number.Int 3072)
  ∧ (∀ configuration n,
       lookUp configuration "typescript.tsserver.maxTsServerMemory" = JNum n →
       Number.isSafeInteger n = true →
       readMaxTsServerMemory configuration
         = Number.Int (Z.max (Number.num n) 128))
  ∧ (∀ configuration,
       ∃ z, readMaxTsServerMemory configuration = Number.Int z ∧ (128 ≤ z)%Z)
  ∧ (∀ configuration z,
       lookUp configuration "typescript.tsserver.maxTsServerMemory" = num z →
       (128 ≤ z ≤ Number.MAX_SAFE_INTEGER)%Z →
       readMaxTsServerMemory configuration = Number.Int z)
  ∧ (let stored value :=
       getConfiguration
         (workspaceOnly "typescript.tsserver.maxTsServerMemory" value) in
     readMaxTsServerMemory (stored (num 50)) = Number.Int 128
     ∧ readMaxTsServerMemory (stored (num 4096)) = Number.Int 4096
     ∧ readMaxTsServerMemory (stored (JNum (Number.Frac 3000 1)))
         = Number.Int 3072
     ∧ readMaxTsServerMemory (stored (JStr "3000")) = Number.Int 3072
     ∧ readMaxTsServerMemory (getConfiguration noSettings) = Number.Int 3072).
Proof.
  split; [|split; [|split; [|split]]].
  - apply readMaxTsServerMemory_unsafe.
  - apply readMaxTsServerMemory_safe.
  - intros configuration.
    pose proof (readMaxTsServerMemory_atLeast128 configuration) as H.
    destruct (readMaxTsServerMemory configuration) as [| | | |z|];
      try discriminate H.
    exists z. split; [reflexivity | simpl in H; lia].
  - intros configuration z Hraw [Hlow Hhigh].
    rewrite (readMaxTsServerMemory_safe configuration (Number.Int z) Hraw).
    + simpl. f_equal. lia.
    + simpl. apply Z.leb_le. lia.
  - repeat split.
Qed.

Lemma readMaxTsServerMemory_spec_witness :
  readMaxTsServerMemory
    (getConfiguration
       (workspaceOnly "typescript.tsserver.maxTsServerMemory" JNull))
    = Number.Int 3072
  ∧ readMaxTsServerMemory (getConfiguration sampleSettings) = Number.Int 128
  ∧ readMaxTsServerMemory
      (getConfiguration
         (workspaceOnly "typescript.tsserver.maxTsServerMemory" (num 8192)))
      = Number.Int 8192.
Proof.
  destruct readMaxTsServerMemory_spec as (Hunsafe & Hsafe & _ & Hkept & _).
  split; [|split].
  - apply Hunsafe. reflexivity.
  - apply (Hsafe (getConfiguration sampleSettings) (Number.Int 50));
      reflexivity.
  - apply Hkept; [reflexivity | vm_compute; split; discriminate].
Defined.

(** ** The tsdk scopes *)

Lemma extractGlobalTsdk_string host configuration result value :
  inspect configuration "typescript.tsdk" = Some result →
  globalValue result = JStr value →
  extractGlobalTsdk host configuration = Some (fixPathPrefixes host value).
Proof. unfold extractGlobalTsdk. by intros -> ->. Qed.

Lemma extractLocalTsdk_string host configuration result value :
  inspect configuration "typescript.tsdk" = Some result →
  workspaceValue result = JStr value →
  extractLocalTsdk host configuration = Some (fixPathPrefixes host value).
Proof. unfold extractLocalTsdk. by intros -> ->. Qed.

Lemma extractGlobalTsdk_Some host configuration path :
  extractGlobalTsdk host configuration = Some path →
  ∃ value, path = fixPathPrefixes host value.
Proof.
  unfold extractGlobalTsdk.
  destruct (inspect configuration _) as [result|]; [|done].
  destruct (globalValue result); try done. intros [= <-]. eauto.
Qed.

Lemma extractLocalTsdk_Some host configuration path :
  extractLocalTsdk host configuration = Some path →
  ∃ value, path = fixPathPrefixes host value.
Proof.
  unfold extractLocalTsdk.
  destruct (inspect configuration _) as [result|]; [|done].
  destruct (workspaceValue result); try done. intros [= <-]. eauto.
Qed.

(** C9: an override of [typescript.tsdk] that is present but is no string
    leaves its field [null], on every host: neither [path.join] nor
    [os.homedir()] takes part in the result. *)
Theorem tsdk_not_a_string host configuration result :
  inspect configuration "typescript.tsdk" = Some result →
  ((∀ s, globalValue result ≠ JStr s) →
     extractGlobalTsdk host configuration = None)
  ∧ ((∀ s, workspaceValue result ≠ JStr s) →
       extractLocalTsdk host configuration = None).
Proof.
  intros Hinspect. unfold extractGlobalTsdk, extractLocalTsdk.
  rewrite Hinspect. split; intros Hno.
  - destruct (globalValue result) as [| | | |s| |]; try done.
    by destruct (Hno s).
  - destruct (workspaceValue result) as [| | | |s| |]; try done.
    by destruct (Hno s).
Qed.

Lemma tsdk_not_a_string_witness :
  let state :=
    {| defaultScope := ∅;
       globalScope := {[ "typescript.tsdk" := num 5 ]};
       workspaceScope :=
         {[ "typescript.tsdk" := JObj [("path", JStr "~/sdks/ts")] ]} |} in
  extractGlobalTsdk (posixHost "/home/u") (getConfiguration state) = None
  ∧ extractLocalTsdk (posixHost "/home/u") (getConfiguration state) = None.
Proof.
  intros state.
  destruct (tsdk_not_a_string (posixHost "/home/u") (getConfiguration state)
              _ eq_refl) as [Hglobal Hlocal].
  split; [apply Hglobal | apply Hlocal]; intros s; vm_compute; discriminate.
Defined.

(** C4: for every state of the layered provider, [globalTsdk] is resolved
    from the global scope's entry for [typescript.tsdk] and [localTsdk]
    from the workspace scope's: a string override in a scope resolves the
    field of that scope to [fixPathPrefixes] of it whatever the other
    scopes hold, and each field is a function of its own scope's entry
    alone.  With a workspace override only, [globalTsdk] is [null]
    although the effective value is the workspace one, and with neither
    override both fields are [null] whatever the default scope holds. *)
Theorem tsdk_scopes_independent (host : Host) :
  (∀ state state',
     globalScope state !! "typescript.tsdk"
       = globalScope state' !! "typescript.tsdk" →
     extractGlobalTsdk host (getConfiguration state)
       = extractGlobalTsdk host (getConfiguration state'))
  ∧ (∀ state state',
       workspaceScope state !! "typescript.tsdk"
         = workspaceScope state' !! "typescript.tsdk" →
       extractLocalTsdk host (getConfiguration state)
         = extractLocalTsdk host (getConfiguration state'))
  ∧ (∀ state value,
       globalScope state !! "typescript.tsdk" = None →
       workspaceScope state !! "typescript.tsdk" = Some (JStr value) →
       lookUp (getConfiguration state) "typescript.tsdk" = JStr value
       ∧ extractGlobalTsdk host (getConfiguration state) = None
       ∧ extractLocalTsdk host (getConfiguration state)
           = Some (fixPathPrefixes host value))
  ∧ (∀ state,
       globalScope state !! "typescript.tsdk" = None →
       workspaceScope state !! "typescript.tsdk" = None →
       extractGlobalTsdk host (getConfiguration state) = None
       ∧ extractLocalTsdk host (getConfiguration state) = None)
  ∧ (∀ state value,
       globalScope state !! "typescript.tsdk" = Some (JStr value) →
       extractGlobalTsdk host (getConfiguration state)
         = Some (fixPathPrefixes host value))
  ∧ (∀ state value,
       workspaceScope state !! "typescript.tsdk" = Some (JStr value) →
       extractLocalTsdk host (getConfiguration state)
         = Some (fixPathPrefixes host value))
  ∧ (∀ state value,
       globalScope state !! "typescript.tsdk" = Some (JStr value) →
       workspaceScope state !! "typescript.tsdk" = None →
       extractGlobalTsdk host (getConfiguration state)
         = Some (fixPathPrefixes host value)
       ∧ extractLocalTsdk host (getConfiguration state) = None).
Proof.
  unfold extractGlobalTsdk, extractLocalTsdk, getConfiguration, effectiveValue,
    scopeValue.
  cbn [inspect lookUp globalValue workspaceValue].
  split; [|split; [|split; [|split; [|split; [|split]]]]].
  - by intros state state' ->.
  - by intros state state' ->.
  - by intros state value -> ->.
  - by intros state -> ->.
  - by intros state value ->.
  - by intros state value ->.
  - by intros state value -> ->.
Qed.

Lemma tsdk_scopes_independent_witness :
  let host := posixHost "/home/u" in
  let state := workspaceOnly "typescript.tsdk" (JStr "./node_modules/ts") in
  let both :=
    {| defaultScope := {[ "typescript.tsdk" := JStr "/opt/ts" ]};
       globalScope := {[ "typescript.tsdk" := JStr "~/sdks/ts" ]};
       workspaceScope := {[ "typescript.tsdk" := JStr "./node_modules/ts" ]} |} in
  extractGlobalTsdk host (getConfiguration state)
    = extractGlobalTsdk host (getConfiguration noSettings)
  ∧ extractLocalTsdk host (getConfiguration sampleSettings)
    = extractLocalTsdk host (getConfiguration noSettings)
  ∧ (lookUp (getConfiguration state) "typescript.tsdk"
       = JStr "./node_modules/ts"
     ∧ extractGlobalTsdk host (getConfiguration state) = None
     ∧ extractLocalTsdk host (getConfiguration state)
         = Some (fixPathPrefixes host "./node_modules/ts"))
  ∧ (extractGlobalTsdk host
       (getConfiguration
          {| defaultScope := {[ "typescript.tsdk" := JStr "/opt/ts" ]};
             globalScope := ∅; workspaceScope := ∅ |}) = None
     ∧ extractLocalTsdk host
         (getConfiguration
            {| defaultScope := {[ "typescript.tsdk" := JStr "/opt/ts" ]};
               globalScope := ∅; workspaceScope := ∅ |}) = None)
  ∧ extractGlobalTsdk host (getConfiguration both)
    = Some (fixPathPrefixes host "~/sdks/ts")
  ∧ extractLocalTsdk host (getConfiguration both)
    = Some (fixPathPrefixes host "./node_modules/ts")
  ∧ (extractGlobalTsdk host (getConfiguration sampleSettings)
       = Some (fixPathPrefixes host "~/sdks/ts")
     ∧ extractLocalTsdk host (getConfiguration sampleSettings) = None).
Proof.
  intros host state both.
  destruct (tsdk_scopes_independent host)
    as (Hglobal & Hlocal & Hworkspace & Hneither & Hset & Hsetlocal & Honly).
  split; [|split; [|split; [|split; [|split; [|split]]]]].
  - apply Hglobal. reflexivity.
  - apply Hlocal. reflexivity.
  - apply Hworkspace; reflexivity.
  - apply Hneither; reflexivity.
  - apply Hset. reflexivity.
  - apply Hsetlocal. reflexivity.
  - apply Honly; reflexivity.
Defined.

(** ** The home prefix *)

Lemma startsWith_app (prefix rest : string) :
  JsString.startsWith (prefix +:+ rest) prefix = true.
Proof.
  induction prefix as [|c prefix IH]; simpl; [done|].
  by rewrite Ascii.eqb_refl.
Qed.

Lemma slice_app (prefix rest : string) :
  JsString.slice (String.length prefix) (prefix +:+ rest) = rest.
Proof. induction prefix as [|c prefix IH]; simpl; [by destruct rest | done]. Qed.

Lemma startsWith_inv (s prefix : string) :
  JsString.startsWith s prefix = true → ∃ rest, s = prefix +:+ rest.
Proof.
  revert s. induction prefix as [|c prefix IH]; intros s; simpl.
  - intros _. by exists s.
  - destruct s as [|d s]; [done|].
    intros [Hc Hrest]%andb_true_iff. apply Ascii.eqb_eq in Hc as ->.
    destruct (IH s Hrest) as [rest ->]. by exists rest.
Qed.

Lemma app_empty (s : string) : s +:+ "" = s.
Proof.
  induction s as [|c s IH]; [done|].
  change (String c (s +:+ "") = String c s). by f_equal.
Qed.

Lemma fixPathPrefixes_prefixed (host : Host) (rest : string) :
  fixPathPrefixes host (("~" +:+ path_sep host) +:+ rest)
    = path_join host [os_homedir host; rest].
Proof.
  unfold fixPathPrefixes, fixFirstPrefix.
  by rewrite startsWith_app, slice_app.
Qed.

Lemma fixPathPrefixes_other (host : Host) (value : string) :
  JsString.startsWith value ("~" +:+ path_sep host) = false →
  fixPathPrefixes host value = value.
Proof. unfold fixPathPrefixes, fixFirstPrefix. by intros ->. Qed.

Lemma isAbsolute_inv (path : string) :
  posix.isAbsolute path = true → ∃ rest, path = String "/" rest.
Proof. intros [rest ->]%startsWith_inv. by exists rest. Qed.

Lemma joined_absolute (args : list string) (acc : string) :
  posix.isAbsolute acc = true →
  ∃ j, posix.joined (Some acc) args = Some j ∧ posix.isAbsolute j = true.
Proof.
  revert acc. induction args as [|arg args IH]; intros acc Habs.
  - by exists acc.
  - cbn [posix.joined]. destruct (String.eqb arg ""); [by apply IH|].
    apply IH. by destruct (isAbsolute_inv acc Habs) as [rest ->].
Qed.

Lemma normalize_absolute (path : string) :
  posix.isAbsolute path = true → ∃ rest, posix.normalize path = String "/" rest.
Proof.
  intros Habs. unfold posix.normalize. fold (posix.isAbsolute path).
  rewrite Habs. destruct (isAbsolute_inv path Habs) as [tail ->].
  cbn [String.eqb Ascii.eqb negb].
  destruct (String.eqb _ ""); [by eexists|].
  destruct (posix.endsWithSlash _); by eexists.
Qed.

Lemma join_absolute (homedir : string) (args : list string) :
  posix.isAbsolute homedir = true →
  ∃ rest, posix.join (homedir :: args) = String "/" rest.
Proof.
  intros Habs. unfold posix.join. cbn [posix.joined].
  destruct (isAbsolute_inv homedir Habs) as [tail ->]. cbn [String.eqb].
  destruct (joined_absolute args (String "/" tail) Habs) as (j & -> & Hj).
  by apply normalize_absolute.
Qed.

Lemma fixPathPrefixes_posix_expanded (homedir value : string) :
  posix.isAbsolute homedir = true →
  JsString.startsWith (fixPathPrefixes (posixHost homedir) value) "~/" = false.
Proof.
  intros Habs. unfold fixPathPrefixes, fixFirstPrefix.
  cbn [path_sep path_join os_homedir posixHost]. unfold posix.sep.
  change ("~" +:+ "/") with "~/".
  destruct (JsString.startsWith value "~/") eqn:Hprefix; [|done].
  by destruct (join_absolute homedir [JsString.slice (String.length "~/") value]
                 Habs) as [rest ->].
Qed.

(** C5, as the spec words it, fails where the home directory does not
    start at the root: [os.homedir()] hands on what the environment gives,
    and with the home directory [~] the global override [~/x] resolves to
    [path.join('~', 'x')], which is [~/x] again and begins with the prefix. *)
Lemma home_prefix_retained :
  extractGlobalTsdk (posixHost "~")
    (getConfiguration
       {| defaultScope := ∅;
          globalScope := {[ "typescript.tsdk" := JStr "~/x" ]};
          workspaceScope := ∅ |})
  = Some "~/x"
  ∧ JsString.startsWith "~/x" ("~" +:+ path_sep (posixHost "~")) = true
  ∧ fixPathPrefixes (posixHost ".") "~/~/x" = "~/x".
Proof. by repeat split. Qed.

(** C5, amended: a tsdk value that begins with [~] and the path separator
    resolves to [path.join] of the home directory and what follows the
    prefix; any other string passes through unchanged; this holds for the
    global and for the workspace field alike.  On a POSIX host whose home
    directory is an absolute path, neither field begins with the prefix
    once resolved; with the home directory [/home/u], the global override
    [~/sdks/ts] resolves to [/home/u/sdks/ts]. *)
Theorem home_prefix_expanded :
  (∀ host rest,
     fixPathPrefixes host (("~" +:+ path_sep host) +:+ rest)
       = path_join host [os_homedir host; rest])
  ∧ (∀ host value,
       (∀ rest, value ≠ ("~" +:+ path_sep host) +:+ rest) →
       fixPathPrefixes host value = value)
  ∧ (∀ host configuration result value,
       inspect configuration "typescript.tsdk" = Some result →
       (globalValue result = JStr value →
          extractGlobalTsdk host configuration
            = Some (fixPathPrefixes host value))
       ∧ (workspaceValue result = JStr value →
            extractLocalTsdk host configuration
              = Some (fixPathPrefixes host value)))
  ∧ (∀ homedir configuration path,
       posix.isAbsolute homedir = true →
       extractGlobalTsdk (posixHost homedir) configuration = Some path
       ∨ extractLocalTsdk (posixHost homedir) configuration = Some path →
       ∀ rest, path ≠ "~/" +:+ rest)
  ∧ extractGlobalTsdk (posixHost "/home/u")
      (getConfiguration
         {| defaultScope := ∅;
            globalScope := {[ "typescript.tsdk" := JStr "~/sdks/ts" ]};
            workspaceScope := ∅ |})
    = Some (posix.join ["/home/u"; "sdks/ts"])
  ∧ posix.join ["/home/u"; "sdks/ts"] = "/home/u/sdks/ts".
Proof.
  split; [|split; [|split; [|split; [|by split]]]].
  - apply fixPathPrefixes_prefixed.
  - intros host value Hno. apply fixPathPrefixes_other.
    destruct (JsString.startsWith value _) eqn:Hprefix; [|done].
    destruct (startsWith_inv _ _ Hprefix) as [rest ->]. by destruct (Hno rest).
  - intros host configuration result value Hinspect. split; intros Hvalue.
    + by apply (extractGlobalTsdk_string _ _ result).
    + by apply (extractLocalTsdk_string _ _ result).
  - intros homedir configuration path Habs Hfield rest ->.
    assert (∃ value, "~/" +:+ rest = fixPathPrefixes (posixHost homedir) value)
      as [value Hvalue].
    { destruct Hfield as [H|H];
        [by apply extractGlobalTsdk_Some in H
        | by apply extractLocalTsdk_Some in H]. }
    pose proof (fixPathPrefixes_posix_expanded homedir value Habs) as Hexp.
    rewrite <- Hvalue in Hexp. by rewrite (startsWith_app "~/" rest) in Hexp.
Qed.

Lemma home_prefix_expanded_witness :
  let host := posixHost "/home/u" in
  let configuration := getConfiguration sampleSettings in
  fixPathPrefixes host "/opt/~/ts" = "/opt/~/ts"
  ∧ extractGlobalTsdk host configuration = Some "/home/u/sdks/ts"
  ∧ (∀ rest, "/home/u/sdks/ts" ≠ "~/" +:+ rest).
Proof.
  intros host configuration.
  destruct home_prefix_expanded as (_ & Hother & Hfield & Hexpanded & _).
  split; [|split].
  - apply Hother. intros rest. vm_compute. discriminate.
  - apply (Hfield host configuration _ "~/sdks/ts" eq_refl). reflexivity.
  - apply (Hexpanded "/home/u" configuration).
    + reflexivity.
    + left. reflexivity.
Defined.

Lemma segments_slashFree (s : string) :
  posix.slashFree s = true → posix.segments s = [s].
Proof.
  induction s as [|c s IH]; [done|]. cbn [posix.slashFree posix.segments].
  intros [Hc Hs]%andb_true_iff. apply negb_true_iff in Hc.
  by rewrite Hc, (IH Hs).
Qed.

Lemma segments_app (s t : string) :
  posix.slashFree s = true →
  posix.segments (s +:+ "/" +:+ t) = s :: posix.segments t.
Proof.
  induction s as [|c s IH]; [done|]. cbn [posix.slashFree].
  intros [Hc Hs]%andb_true_iff. apply negb_true_iff in Hc.
  change (String c s +:+ "/" +:+ t) with (String c (s +:+ "/" +:+ t)).
  cbn [posix.segments]. by rewrite Hc, (IH Hs).
Qed.

Lemma plainSegment_slashFree (segment : string) :
  posix.plainSegment segment = true → posix.slashFree segment = true.
Proof. by intros [? _]%andb_true_iff. Qed.

Lemma segments_concat (segs : list string) :
  segs ≠ [] → Forall (fun seg => posix.plainSegment seg = true) segs →
  posix.segments (String.concat "/" segs) = segs.
Proof.
  intros Hne Hplain. induction Hplain as [|seg segs Hseg Hsegs IH]; [done|].
  destruct segs as [|next segs].
  - by apply segments_slashFree, plainSegment_slashFree.
  - change (String.concat "/" (seg :: next :: segs))
      with (seg +:+ "/" +:+ String.concat "/" (next :: segs)).
    rewrite segments_app by by apply plainSegment_slashFree.
    by rewrite IH.
Qed.

Lemma segments_absolutePath (segs : list string) :
  segs ≠ [] → Forall (fun seg => posix.plainSegment seg = true) segs →
  posix.segments (posix.absolutePath segs) = "" :: segs.
Proof.
  intros Hne Hplain. unfold posix.absolutePath.
  change ("/" +:+ String.concat "/" segs)
    with ("" +:+ "/" +:+ String.concat "/" segs).
  by rewrite (segments_app "" _ eq_refl), (segments_concat segs Hne Hplain).
Qed.

Lemma resolve_plain (allowAboveRoot : bool) (res : list string) segment :
  posix.plainSegment segment = true →
  posix.resolve allowAboveRoot res segment = segment :: res.
Proof.
  intros [_ Hplain]%andb_true_iff. apply negb_true_iff in Hplain.
  apply orb_false_iff in Hplain as [Hplain Hdotdot].
  unfold posix.resolve. by rewrite Hplain, Hdotdot.
Qed.

Lemma fold_resolve_plain (allowAboveRoot : bool) (segs res : list string) :
  Forall (fun seg => posix.plainSegment seg = true) segs →
  fold_left (posix.resolve allowAboveRoot) segs res = rev segs ++ res.
Proof.
  intros Hplain. revert res.
  induction Hplain as [|seg segs Hseg _ IH]; intros res; [done|].
  cbn [fold_left rev]. rewrite (resolve_plain _ _ _ Hseg), IH.
  by rewrite <- app_assoc.
Qed.

Lemma concat_plain_nonempty (segs : list string) :
  segs ≠ [] → Forall (fun seg => posix.plainSegment seg = true) segs →
  String.eqb (String.concat "/" segs) "" = false.
Proof.
  intros Hne Hplain. destruct Hplain as [|seg segs Hseg _]; [done|].
  destruct seg as [|c seg]; [done|]. by destruct segs.
Qed.

Lemma endsWithSlash_plain (segs : list string) :
  segs ≠ [] → Forall (fun seg => posix.plainSegment seg = true) segs →
  posix.endsWithSlash (posix.absolutePath segs) = false.
Proof.
  intros Hne Hplain. unfold posix.endsWithSlash.
  rewrite (segments_absolutePath segs Hne Hplain). cbn [rev].
  destruct (rev segs) as [|last others] eqn:Hrev.
  { apply (f_equal (@rev string)) in Hrev. by rewrite rev_involutive in Hrev. }
  assert (posix.plainSegment last = true) as Hlast.
  { rewrite Forall_forall in Hplain. apply Hplain.
    apply list_elem_of_In, in_rev. rewrite Hrev. by left. }
  cbn [app]. destruct last as [|c last]; [done|].
  by destruct (others ++ [""]).
Qed.

Lemma normalize_absolutePath (segs : list string) :
  segs ≠ [] → Forall (fun seg => posix.plainSegment seg = true) segs →
  posix.normalize (posix.absolutePath segs) = posix.absolutePath segs.
Proof.
  intros Hne Hplain. unfold posix.normalize.
  rewrite (endsWithSlash_plain segs Hne Hplain).
  unfold posix.normalizeString.
  rewrite (segments_absolutePath segs Hne Hplain).
  cbn [fold_left]. change (posix.resolve _ [] "") with (@nil string).
  rewrite (fold_resolve_plain _ _ _ Hplain), app_nil_r, rev_involutive.
  rewrite (concat_plain_nonempty segs Hne Hplain).
  reflexivity.
Qed.

Lemma join_home_empty (homedir : string) :
  posix.normalize homedir = homedir → posix.join [homedir; ""] = homedir.
Proof.
  intros Hnormal. unfold posix.join. cbn [posix.joined String.eqb].
  destruct homedir as [|c homedir]; [discriminate Hnormal | done].
Qed.

(** C10, as the spec words it, fails where the home directory is not in
    normal form: [path.join] normalizes what it joins, so with the home
    directory [/home//u] the override [~/] resolves to [/home/u], which is
    not the string [os.homedir()] returns. *)
Lemma bare_home_prefix_normalizes :
  extractGlobalTsdk (posixHost "/home//u")
    (getConfiguration
       {| defaultScope := ∅;
          globalScope := {[ "typescript.tsdk" := JStr "~/" ]};
          workspaceScope := ∅ |})
  = Some "/home/u"
  ∧ "/home/u" ≠ os_homedir (posixHost "/home//u").
Proof. split; [reflexivity | discriminate]. Qed.

(** C10, amended: the prefix alone resolves to [path.join] of the home
    directory and the empty string, on every host; on a POSIX host that
    is the normal form of the home directory, so the home directory
    itself as soon as that path is in normal form, which every absolute
    path made of plain segments is. *)
Theorem bare_home_prefix :
  (∀ host,
     fixPathPrefixes host ("~" +:+ path_sep host)
       = path_join host [os_homedir host; ""])
  ∧ (∀ homedir,
       homedir ≠ "" →
       fixPathPrefixes (posixHost homedir) "~/" = posix.normalize homedir)
  ∧ (∀ homedir configuration result,
       posix.normalize homedir = homedir →
       inspect configuration "typescript.tsdk" = Some result →
       (globalValue result = JStr "~/" →
          extractGlobalTsdk (posixHost homedir) configuration = Some homedir)
       ∧ (workspaceValue result = JStr "~/" →
            extractLocalTsdk (posixHost homedir) configuration = Some homedir))
  ∧ (∀ segs,
       segs ≠ [] → Forall (fun seg => posix.plainSegment seg = true) segs →
       fixPathPrefixes (posixHost (posix.absolutePath segs)) "~/"
         = posix.absolutePath segs).
Proof.
  assert (∀ host, fixPathPrefixes host ("~" +:+ path_sep host)
                    = path_join host [os_homedir host; ""]) as Hbare.
  { intros host.
    rewrite <- (app_empty ("~" +:+ path_sep host)) at 1.
    apply fixPathPrefixes_prefixed. }
  assert (∀ homedir, homedir ≠ "" →
            fixPathPrefixes (posixHost homedir) "~/" = posix.normalize homedir)
    as Hnormalize.
  { intros homedir Hhome. etrans; [exact (Hbare (posixHost homedir))|].
    cbn [path_join os_homedir posixHost]. unfold posix.join.
    cbn [posix.joined String.eqb]. by destruct homedir. }
  split; [done | split; [done | split]].
  - intros homedir configuration result Hnormal Hinspect.
    pose proof (Hbare (posixHost homedir)) as Hposix.
    cbn [path_sep path_join os_homedir posixHost] in Hposix.
    rewrite (join_home_empty _ Hnormal) in Hposix.
    split; intros Hvalue.
    + rewrite (extractGlobalTsdk_string _ _ result "~/" Hinspect Hvalue).
      f_equal. exact Hposix.
    + rewrite (extractLocalTsdk_string _ _ result "~/" Hinspect Hvalue).
      f_equal. exact Hposix.
  - intros segs Hne Hplain. rewrite Hnormalize by done.
    by apply normalize_absolutePath.
Qed.

Lemma bare_home_prefix_witness :
  fixPathPrefixes (posixHost "/home//u/.") "~/" = "/home/u"
  ∧ extractLocalTsdk (posixHost "/home/u")
      (getConfiguration (workspaceOnly "typescript.tsdk" (JStr "~/")))
    = Some "/home/u"
  ∧ fixPathPrefixes (posixHost (posix.absolutePath ["Users"; "me"])) "~/"
    = "/Users/me".
Proof.
  destruct bare_home_prefix as (_ & Hnormalize & Hfield & Hplain).
  split; [|split].
  - apply (Hnormalize "/home//u/."). discriminate.
  - eapply (Hfield "/home/u"); reflexivity.
  - apply (Hplain ["Users"; "me"]); [discriminate | by repeat constructor].
Defined.

(** ** Deep equality *)

Lemma JsValue_nested_ind (P : JsValue → Prop) :
  P JUndefined → P JNull → (∀ b, P (JBool b)) → (∀ n, P (JNum n)) →
  (∀ s, P (JStr s)) →
  (∀ items, Forall P items → P (JArr items)) →
  (∀ props, Forall (fun prop => P (snd prop)) props → P (JObj props)) →
  ∀ v, P v.
Proof.
  intros Hundefined Hnull Hbool Hnum Hstr Harr Hobj.
  fix IH 1. intros [| |b|n|s|items|props].
  - exact Hundefined.
  - exact Hnull.
  - apply Hbool.
  - apply Hnum.
  - apply Hstr.
  - apply Harr. induction items as [|item items IHitems]; constructor.
    + apply IH.
    + exact IHitems.
  - apply Hobj. induction props as [|prop props IHprops]; constructor.
    + apply IH.
    + exact IHprops.
Qed.

Lemma strictEq_true `{EqDecision A} (x y : A) : (x === y) = true ↔ x = y.
Proof. unfold strictEq. apply bool_decide_eq_true. Qed.

Lemma arrays_equals_Forall2 {A} (itemEquals : A → A → bool) (R : A → A → Prop)
    (a b : list A) :
  Forall (fun x => ∀ y, itemEquals x y = true ↔ R x y) a →
  arrays.equals a b itemEquals = true ↔ Forall2 R a b.
Proof.
  intros Hitems. revert b.
  induction Hitems as [|x a Hx _ IH]; intros [|y b].
  - split; [constructor | done].
  - split; [done | inversion 1].
  - split; [done | inversion 1].
  - change (arrays.equals (x :: a) (y :: b) itemEquals)
      with (itemEquals x y && arrays.equals a b itemEquals).
    rewrite andb_true_iff, Hx, IH.
    split; [intros []; by constructor | by inversion 1].
Qed.

Lemma arrays_equals_strings (a b : list string) :
  arrays.equals a b strictEq = true ↔ a = b.
Proof.
  rewrite (arrays_equals_Forall2 strictEq eq).
  - symmetry. apply list_eq_Forall2.
  - apply Forall_forall. intros x _ y. apply strictEq_true.
Qed.

Lemma Number_equal_oneZero (a b : Number.t) :
  Number.isNaN a = false →
  Number.equal a b = true ↔ oneZero a = oneZero b.
Proof.
  intros Ha. unfold Number.equal.
  destruct a as [| | | |[]|], b as [| | | |[]|]; try discriminate Ha; simpl;
    rewrite ?bool_decide_eq_true; split; congruence.
Qed.

Lemma Number_equal_atLeast128 (a b : Number.t) :
  atLeast128 a = true → Number.equal a b = true ↔ a = b.
Proof.
  intros Ha. unfold Number.equal.
  destruct a as [| | | |[]|], b as [| | | |[]|]; try discriminate Ha; simpl;
    rewrite ?bool_decide_eq_true; split; congruence.
Qed.

Lemma includes_elem_of (l : list string) (key : string) :
  objects.includes l key = true ↔ key ∈ l.
Proof.
  unfold objects.includes. rewrite existsb_exists. split.
  - intros (k & Hk & ->%String.eqb_eq). by apply list_elem_of_In.
  - intros Hkey. exists key. split; [by apply list_elem_of_In|].
    apply String.eqb_refl.
Qed.

Lemma sameKeys_includes (a b : list string) :
  objects.sameKeys a b = true ↔ ∀ key, objects.includes a key = objects.includes b key.
Proof.
  unfold objects.sameKeys. rewrite andb_true_iff, !forallb_forall. split.
  - intros [Hab Hba] key.
    destruct (objects.includes a key) eqn:Ha.
    + symmetry. apply Hab. apply list_elem_of_In. by apply includes_elem_of.
    + destruct (objects.includes b key) eqn:Hb; [|done].
      rewrite <- Ha. apply Hba. apply list_elem_of_In. by apply includes_elem_of.
  - intros Hsame. split; intros key Hkey%list_elem_of_In%includes_elem_of.
    + by rewrite <- Hsame.
    + by rewrite Hsame.
Qed.

Lemma lookup_unordered_props (props : list (string * JsValue)) (key : string) :
  (list_to_map ((fun prop => (fst prop, unordered (snd prop))) <$> props)
     : gmap string Tree) !! key
  = if objects.includes (objects.keys props) key
    then Some (unordered (objects.getProperty props key))
    else None.
Proof.
  induction props as [|[k value] props IH]; [done|].
  cbn [fmap list_fmap list_to_map foldr fst snd uncurry]. simpl.
  rewrite (String.eqb_sym key k).
  destruct (String.eqb_spec k key) as [->|Hne].
  - by rewrite lookup_insert_eq.
  - by rewrite lookup_insert_ne.
Qed.

Lemma getProperty_elem_of (props : list (string * JsValue)) (key : string) :
  objects.includes (objects.keys props) key = true →
  (key, objects.getProperty props key) ∈ props.
Proof.
  induction props as [|[k value] props IH]; [done|]. simpl.
  rewrite (String.eqb_sym key k).
  destruct (String.eqb_spec k key) as [->|Hne]; simpl.
  - intros _. apply list_elem_of_here.
  - intros Hkey. apply list_elem_of_further. by apply IH.
Qed.

Lemma getProperty_unique (props : list (string * JsValue)) key value :
  uniqueKeys (objects.keys props) = true →
  (key, value) ∈ props → objects.getProperty props key = value.
Proof.
  induction props as [|[k v] props IH]; [by intros _ ?%elem_of_nil|].
  simpl. intros [Hfresh Hunique]%andb_true_iff [[= -> ->]|Hin]%elem_of_cons.
  - by rewrite String.eqb_refl.
  - destruct (String.eqb_spec k key) as [->|Hne]; [|by apply IH].
    apply negb_true_iff in Hfresh.
    assert (objects.includes (objects.keys props) key = true) as Hkey; [|congruence].
    apply includes_elem_of. unfold objects.keys.
    apply list_elem_of_In, in_map_iff. exists (key, value).
    split; [done | by apply list_elem_of_In].
Qed.

Lemma equals_unordered (one : JsValue) :
  wellFormed one = true →
  ∀ other, objects.equals one other = true ↔ unordered one = unordered other.
Proof.
  induction one as [| |a|a|a|a IH|a IH] using JsValue_nested_ind;
    intros Hwf [| |b|b|b|b|b]; simpl; try (split; done).
  - rewrite strictEq_true. split; congruence.
  - apply negb_true_iff in Hwf. rewrite (Number_equal_oneZero a b Hwf).
    split; congruence.
  - rewrite strictEq_true. split; congruence.
  - simpl in Hwf. rewrite forallb_forall in Hwf.
    rewrite (arrays_equals_Forall2 _
               (fun x y => unordered x = unordered y)).
    + rewrite <- (Forall2_fmap unordered unordered (=)), <- list_eq_Forall2.
      split; congruence.
    + rewrite Forall_forall in IH |- *. intros x Hx y.
      apply IH; [done|]. apply Hwf. by apply list_elem_of_In.
  - simpl in Hwf. apply andb_true_iff in Hwf as [Hunique Hvalues].
    rewrite forallb_forall in Hvalues. rewrite Forall_forall in IH.
    rewrite andb_true_iff, sameKeys_includes, forallb_forall. split.
    + intros [Hkeys Hprops]. f_equal. apply map_eq. intros key.
      rewrite !lookup_unordered_props, <- Hkeys.
      destruct (objects.includes (objects.keys a) key) eqn:Hkey; [|done].
      f_equal. pose proof (getProperty_elem_of a key Hkey) as Hin.
      apply (IH _ Hin).
      * apply (Hvalues (key, objects.getProperty a key)).
        by apply list_elem_of_In.
      * apply (Hprops (key, objects.getProperty a key)).
        by apply list_elem_of_In.
    + intros [= Hmaps].
      assert (∀ key,
        (if objects.includes (objects.keys a) key
         then Some (unordered (objects.getProperty a key)) else None)
        = (if objects.includes (objects.keys b) key
           then Some (unordered (objects.getProperty b key)) else None))
        as Hlookup.
      { intros key. rewrite <- !lookup_unordered_props. by rewrite Hmaps. }
      split.
      * intros key. specialize (Hlookup key).
        by destruct (objects.includes (objects.keys a) key),
             (objects.includes (objects.keys b) key).
      * intros [key value] Hin%list_elem_of_In. simpl.
        apply (IH _ Hin); [by apply (Hvalues (key, value)), list_elem_of_In|].
        specialize (Hlookup key).
        rewrite (getProperty_unique a key value Hunique Hin) in Hlookup.
        assert (objects.includes (objects.keys a) key = true) as Hkey.
        { apply includes_elem_of. unfold objects.keys.
          apply list_elem_of_In, in_map_iff. exists (key, value).
          split; [done | by apply list_elem_of_In]. }
        rewrite Hkey in Hlookup.
        cbn [snd]. destruct (objects.includes (objects.keys b) key); congruence.
Qed.

(** ** [isEqualTo] *)

Lemma allFields_complete : length allFields = 17 ∧ ∀ f : Field, f ∈ allFields.
Proof. split; [done|]. intros []; unfold allFields; set_solver. Qed.

Lemma isEqualTo_agree (a b : TypeScriptServiceConfiguration) :
  constructed a = true →
  isEqualTo a b = true ↔ ∀ f, agreeOn f a b.
Proof.
  intros [Hmemory Hoptions]%andb_true_iff. unfold isEqualTo.
  rewrite !andb_true_iff, !strictEq_true, arrays_equals_strings,
    (Number_equal_atLeast128 _ _ Hmemory), (equals_unordered _ Hoptions).
  split.
  - intros H f. destruct f; simpl; tauto.
  - intros H.
    repeat split;
      [ apply (H Locale) | apply (H GlobalTsdk) | apply (H LocalTsdk)
      | apply (H NpmLocation) | apply (H LogLevel) | apply (H CheckJs)
      | apply (H ExperimentalDecorators) | apply (H ImplicitStrictNullChecks)
      | apply (H ImplicitStrictFunctionTypes)
      | apply (H DisableAutomaticTypeAcquisition) | apply (H PluginPaths)
      | apply (H SeparateSyntaxServer) | apply (H EnableProjectDiagnostics)
      | apply (H MaxTsServerMemoryMB) | apply (H WatchOptions)
      | apply (H EnablePromptUseWorkspaceTsdk)
      | apply (H IncludePackageJsonAutoImports) ].
Qed.

Lemma agreeOn_refl (f : Field) (a : TypeScriptServiceConfiguration) :
  agreeOn f a a.
Proof. by destruct f. Qed.

Lemma agreeOn_sym (f : Field) (a b : TypeScriptServiceConfiguration) :
  agreeOn f a b → agreeOn f b a.
Proof. by destruct f. Qed.

Lemma isEqualTo_refl (a : TypeScriptServiceConfiguration) :
  constructed a = true → isEqualTo a a = true.
Proof. intros Ha. apply isEqualTo_agree; [done|]. intros f. apply agreeOn_refl. Qed.

Lemma loadFromWorkspace_constructed host configuration a :
  wellFormed (lookUp configuration "typescript.tsserver.watchOptions") = true →
  loadFromWorkspace host configuration = Returns a →
  constructed a = true.
Proof.
  intros Hoptions Hload. unfold loadFromWorkspace in Hload.
  repeat (apply bind_Returns in Hload as (? & _ & Hload)).
  injection Hload as <-. unfold constructed. cbn [maxTsServerMemory watchOptions].
  by rewrite readMaxTsServerMemory_atLeast128.
Qed.

(** C1: on two snapshots, [isEqualTo] is true exactly when they agree on
    every one of the 17 fields: the same value in each primitive field,
    the same sequence of plugin paths, and watch options that are the same
    once the insertion order of object keys is forgotten.  Plugin paths in
    another order compare unequal; watch options absent on both sides
    compare equal, as do two objects with the same entries in another
    order, and a differing value compares unequal. *)
Theorem isEqualTo_all_fields :
  (∀ a b,
     constructed a = true → constructed b = true →
     isEqualTo a b = true ↔ ∀ f, agreeOn f a b)
  ∧ (length allFields = 17 ∧ ∀ f : Field, f ∈ allFields)
  ∧ isEqualTo (withPluginPaths ["a"; "b"]) (withPluginPaths ["b"; "a"]) = false
  ∧ isEqualTo (withWatchOptions JUndefined) (withWatchOptions JUndefined) = true
  ∧ isEqualTo
      (withWatchOptions
         (JObj [("watchFile", JStr "useFsEvents");
                ("nested", JObj [("x", num 1); ("y", JArr [num 2; JNull])])]))
      (withWatchOptions
         (JObj [("nested", JObj [("y", JArr [num 2; JNull]); ("x", num 1)]);
                ("watchFile", JStr "useFsEvents")])) = true
  ∧ isEqualTo
      (withWatchOptions (JObj [("watchFile", JStr "useFsEvents")]))
      (withWatchOptions (JObj [("watchFile", JStr "fixedPollingInterval")]))
    = false.
Proof.
  split; [|split; [apply allFields_complete | by repeat split]].
  intros a b Ha _. by apply isEqualTo_agree.
Qed.

Lemma isEqualTo_all_fields_witness :
  isEqualTo
    (withWatchOptions (JObj [("a", num 1); ("b", JBool true)]))
    (withWatchOptions (JObj [("b", JBool true); ("a", num 1)])) = true.
Proof.
  destruct isEqualTo_all_fields as [Hiff _].
  apply Hiff; [reflexivity | reflexivity |].
  intros []; reflexivity.
Defined.

(** C7: [isEqualTo] is reflexive and symmetric on snapshots; two snapshots
    that do not agree on a field, whichever of the 17 it is and whatever
    the other fields hold, compare unequal; and two snapshots built from
    the same settings on the same host compare equal. *)
Theorem isEqualTo_reflexive_symmetric_sensitive :
  (∀ a, constructed a = true → isEqualTo a a = true)
  ∧ (∀ a b,
       constructed a = true → constructed b = true →
       isEqualTo a b = isEqualTo b a)
  ∧ (∀ f a b,
       constructed a = true → constructed b = true →
       ¬ agreeOn f a b → isEqualTo a b = false)
  ∧ (∀ host configuration a b,
       wellFormed (lookUp configuration "typescript.tsserver.watchOptions")
         = true →
       loadFromWorkspace host configuration = Returns a →
       constructed a = true
       ∧ (loadFromWorkspace host configuration = Returns b →
          isEqualTo a b = true)).
Proof.
  split; [|split; [|split]].
  - apply isEqualTo_refl.
  - intros a b Ha Hb. apply eq_true_iff_eq.
    rewrite (isEqualTo_agree a b Ha), (isEqualTo_agree b a Hb).
    split; intros H f; apply agreeOn_sym, H.
  - intros f a b Ha _ Hdiffer. apply not_true_is_false.
    rewrite (isEqualTo_agree a b Ha). intros H. apply Hdiffer, H.
  - intros host configuration a b Hoptions Hload.
    pose proof (loadFromWorkspace_constructed _ _ _ Hoptions Hload) as Ha.
    split; [done|]. rewrite Hload. intros [= <-]. by apply isEqualTo_refl.
Qed.

Lemma isEqualTo_reflexive_symmetric_sensitive_witness :
  isEqualTo sampleSnapshot sampleSnapshot = true
  ∧ isEqualTo sampleSnapshot defaultSnapshot
    = isEqualTo defaultSnapshot sampleSnapshot
  ∧ isEqualTo sampleSnapshot defaultSnapshot = false
  ∧ isEqualTo (withPluginPaths ["a"]) defaultSnapshot = false
  ∧ constructed sampleSnapshot = true.
Proof.
  destruct isEqualTo_reflexive_symmetric_sensitive
    as (Hrefl & Hsym & Hsensitive & Hload).
  destruct (Hload (posixHost "/home/u") (getConfiguration sampleSettings)
              sampleSnapshot sampleSnapshot eq_refl eq_refl)
    as [Hconstructed Hsame].
  split; [|split; [|split; [|split]]].
  - apply Hsame. reflexivity.
  - apply Hsym; reflexivity.
  - apply (Hsensitive LogLevel); [reflexivity | reflexivity | discriminate].
  - apply (Hsensitive PluginPaths); [reflexivity | reflexivity | discriminate].
  - exact Hconstructed.
Defined.


(** * Further properties of the code *)

(** ** [TsServerLogLevel] beyond the level names *)

(** X1: on a value that is no string, [fromString] returns [Off] when the
    value is falsy ([undefined], [null], [false], the zeros, NaN) and
    throws a [TypeError] when it is truthy (any other number, [true], an
    array, an object), for it then calls a [toLowerCase] that the value
    does not have. *)
Theorem fromString_not_a_string (value : JsValue) :
  isAString value = false →
  (truthy value = false →
     TsServerLogLevel.fromString value = Returns TsServerLogLevel.Off)
  ∧ (truthy value = true →
       TsServerLogLevel.fromString value
         = Throws (TypeError "value.toLowerCase is not a function")).
Proof.
  intros Hnot. split; [apply fromString_falsy|].
  intros Htruthy. unfold TsServerLogLevel.fromString. rewrite Htruthy.
  by destruct value.
Qed.

Lemma fromString_not_a_string_witness :
  TsServerLogLevel.fromString (JBool false) = Returns TsServerLogLevel.Off
  ∧ TsServerLogLevel.fromString (JNum Number.NaN)
      = Returns TsServerLogLevel.Off
  ∧ TsServerLogLevel.fromString (num 2)
      = Throws (TypeError "value.toLowerCase is not a function")
  ∧ TsServerLogLevel.fromString (JArr [JStr "verbose"])
      = Throws (TypeError "value.toLowerCase is not a function").
Proof.
  split; [|split; [|split]].
  - apply (fromString_not_a_string (JBool false)); reflexivity.
  - apply (fromString_not_a_string (JNum Number.NaN)); reflexivity.
  - apply (fromString_not_a_string (num 2)); reflexivity.
  - apply (fromString_not_a_string (JArr [JStr "verbose"])); reflexivity.
Defined.

(** X2: [fromString] undoes [toString]: serializing a level and parsing
    the result gives the level back; hence [toString] gives different
    levels different names. *)
Theorem fromString_toString :
  (∀ level,
     TsServerLogLevel.fromString (JStr (TsServerLogLevel.toString level))
       = Returns level)
  ∧ (∀ level level',
       TsServerLogLevel.toString level = TsServerLogLevel.toString level' →
       level = level').
Proof.
  assert (∀ level,
    TsServerLogLevel.fromString (JStr (TsServerLogLevel.toString level))
      = Returns level) as Hinverse by (by intros []).
  split; [done|]. intros level level' Hname.
  pose proof (Hinverse level) as H. rewrite Hname, Hinverse in H. congruence.
Qed.

Lemma fromString_toString_witness :
  TsServerLogLevel.Terse = TsServerLogLevel.Terse
  ∧ TsServerLogLevel.fromString (JStr (TsServerLogLevel.toString TsServerLogLevel.Terse))
    = Returns TsServerLogLevel.Terse.
Proof.
  destruct fromString_toString as [Hinverse Hinjective].
  split; [apply Hinjective; reflexivity | apply Hinverse].
Defined.

Lemma lowerChar_of_capital (d : ascii) :
  JsString.lowerChar (capital d) = JsString.lowerChar d.
Proof. by each_character d. Qed.

Lemma inSomeCase_same_lower (s t : string) :
  inSomeCase s t → JsString.toLowerCase s = JsString.toLowerCase t.
Proof.
  revert t. induction s as [|c s IH]; intros [|d t]; simpl; try done.
  intros [Hc Hrest]. f_equal; [|by apply IH].
  destruct Hc as [-> | ->]; [done | apply lowerChar_of_capital].
Qed.

(** X3: [fromString] does not see letter case on any string: two strings
    that differ by the case of their letters only have the same outcome. *)
Theorem fromString_ignores_case (s t : string) :
  inSomeCase s t →
  TsServerLogLevel.fromString (JStr s) = TsServerLogLevel.fromString (JStr t).
Proof.
  intros Hcase. rewrite !fromString_string.
  by rewrite (inSomeCase_same_lower s t Hcase).
Qed.

Lemma fromString_ignores_case_witness :
  TsServerLogLevel.fromString (JStr "TERSE")
    = TsServerLogLevel.fromString (JStr "Terse")
  ∧ TsServerLogLevel.fromString (JStr "TRACE")
    = TsServerLogLevel.fromString (JStr "trace").
Proof.
  split.
  - apply (fromString_ignores_case "TERSE" "Terse"). simpl. tauto.
  - apply (fromString_ignores_case "TRACE" "trace"). simpl. tauto.
Defined.

(** ** The memory bound as a closure *)

Lemma isSafeInteger_bound (n : Number.t) :
  Number.isSafeInteger n = true →
  (- Number.MAX_SAFE_INTEGER ≤ Number.num n ≤ Number.MAX_SAFE_INTEGER)%Z.
Proof.
  destruct n as [| | | |z|]; try discriminate; simpl.
  - intros _. unfold Number.MAX_SAFE_INTEGER. lia.
  - intros H%Z.leb_le. lia.
Qed.

Lemma readMaxTsServerMemory_range configuration :
  ∃ z, readMaxTsServerMemory configuration = Number.Int z
       ∧ (128 ≤ z ≤ Number.MAX_SAFE_INTEGER)%Z.
Proof.
  destruct (Number_isSafeInteger
              (lookUp configuration "typescript.tsserver.maxTsServerMemory"))
    eqn:Hsafe.
  - destruct (lookUp configuration _) as [| | |n| | |] eqn:Hraw;
      try discriminate.
    rewrite (readMaxTsServerMemory_safe _ n Hraw Hsafe).
    pose proof (isSafeInteger_bound n Hsafe) as Hbound.
    eexists. split; [reflexivity|].
    unfold Number.MAX_SAFE_INTEGER in *. lia.
  - rewrite readMaxTsServerMemory_unsafe by done.
    eexists. split; [reflexivity|]. unfold Number.MAX_SAFE_INTEGER. lia.
Qed.

(** X4: the resolved memory bound is always a safe integer between 128
    and 2^53 - 1; stored back as the setting it resolves to itself; and
    among safe integers a larger setting never resolves to a smaller
    bound. *)
Theorem readMaxTsServerMemory_closure :
  (∀ configuration,
     ∃ z, readMaxTsServerMemory configuration = Number.Int z
          ∧ (128 ≤ z ≤ Number.MAX_SAFE_INTEGER)%Z
          ∧ Number.isSafeInteger (readMaxTsServerMemory configuration) = true)
  ∧ (∀ configuration configuration',
       lookUp configuration' "typescript.tsserver.maxTsServerMemory"
         = JNum (readMaxTsServerMemory configuration) →
       readMaxTsServerMemory configuration'
         = readMaxTsServerMemory configuration)
  ∧ (∀ configuration configuration' n n',
       lookUp configuration "typescript.tsserver.maxTsServerMemory" = JNum n →
       lookUp configuration' "typescript.tsserver.maxTsServerMemory" = JNum n' →
       Number.isSafeInteger n = true → Number.isSafeInteger n' = true →
       (Number.num n ≤ Number.num n')%Z →
       Number.ltb (readMaxTsServerMemory configuration')
         (readMaxTsServerMemory configuration) = false).
Proof.
  split; [|split].
  - intros configuration.
    destruct (readMaxTsServerMemory_range configuration) as (z & Hz & Hrange).
    exists z. rewrite Hz. repeat split; try lia. simpl. apply Z.leb_le. lia.
  - intros configuration configuration' Hstored.
    destruct (readMaxTsServerMemory_range configuration) as (z & Hz & Hrange).
    rewrite Hz in Hstored |- *.
    rewrite (readMaxTsServerMemory_safe _ _ Hstored).
    + simpl. f_equal. lia.
    + simpl. apply Z.leb_le. lia.
  - intros configuration configuration' n n' Hraw Hraw' Hsafe Hsafe' Hle.
    rewrite (readMaxTsServerMemory_safe _ n Hraw Hsafe),
      (readMaxTsServerMemory_safe _ n' Hraw' Hsafe').
    unfold Number.ltb. cbn [Number.num Number.exp]. apply Z.ltb_ge. lia.
Qed.

Lemma readMaxTsServerMemory_closure_witness :
  readMaxTsServerMemory
    (getConfiguration
       (workspaceOnly "typescript.tsserver.maxTsServerMemory"
          (JNum (readMaxTsServerMemory (getConfiguration sampleSettings)))))
    = readMaxTsServerMemory (getConfiguration sampleSettings)
  ∧ Number.ltb
      (readMaxTsServerMemory
         (getConfiguration
            (workspaceOnly "typescript.tsserver.maxTsServerMemory" (num 4096))))
      (readMaxTsServerMemory (getConfiguration sampleSettings)) = false.
Proof.
  destruct readMaxTsServerMemory_closure as (_ & Hfixed & Hmonotone).
  split.
  - apply Hfixed. reflexivity.
  - apply (Hmonotone _ _ (Number.Int 50) (Number.Int 4096));
      try reflexivity. vm_compute. discriminate.
Defined.

(** ** [isEqualTo] as an equivalence *)

Lemma agreeOn_trans (f : Field) (a b c : TypeScriptServiceConfiguration) :
  agreeOn f a b → agreeOn f b c → agreeOn f a c.
Proof. destruct f; simpl; congruence. Qed.

(** X5: [isEqualTo] is transitive on snapshots: when [a] compares equal
    to [b] and [b] to [c], then [a] compares equal to [c].  With the
    reflexivity and symmetry of C7 it is an equivalence, so a caller may
    compare a new snapshot with any earlier one it found equal. *)
Theorem isEqualTo_transitive (a b c : TypeScriptServiceConfiguration) :
  constructed a = true → constructed b = true →
  isEqualTo a b = true → isEqualTo b c = true → isEqualTo a c = true.
Proof.
  intros Ha Hb Hab Hbc.
  rewrite (isEqualTo_agree a b Ha) in Hab.
  rewrite (isEqualTo_agree b c Hb) in Hbc.
  apply (isEqualTo_agree a c Ha). intros f.
  by apply (agreeOn_trans f a b c).
Qed.

Lemma isEqualTo_transitive_witness :
  isEqualTo
    (withWatchOptions (JObj [("a", num 1); ("b", num 2); ("c", JNull)]))
    (withWatchOptions (JObj [("c", JNull); ("b", num 2); ("a", num 1)]))
  = true.
Proof.
  apply (isEqualTo_transitive _
           (withWatchOptions (JObj [("b", num 2); ("a", num 1); ("c", JNull)])));
    reflexivity.
Defined.

(** ** The home prefix, once more *)

(** X6: on a POSIX host whose home directory is an absolute path,
    [fixPathPrefixes] is idempotent: a resolved path is left as it is when
    it is resolved again, so a resolved tsdk path can be stored back as
    the setting. *)
Theorem fixPathPrefixes_idempotent (homedir value : string) :
  posix.isAbsolute homedir = true →
  fixPathPrefixes (posixHost homedir)
    (fixPathPrefixes (posixHost homedir) value)
  = fixPathPrefixes (posixHost homedir) value.
Proof.
  intros Habs. apply fixPathPrefixes_other.
  exact (fixPathPrefixes_posix_expanded homedir value Habs).
Qed.

Lemma fixPathPrefixes_idempotent_witness :
  fixPathPrefixes (posixHost "/home/u")
    (fixPathPrefixes (posixHost "/home/u") "~/../shared/./ts/")
  = "/home/shared/ts/".
Proof.
  rewrite (fixPathPrefixes_idempotent "/home/u" "~/../shared/./ts/" eq_refl).
  reflexivity.
Defined.

Lemma fixPathPrefixes_empty (host : Host) : fixPathPrefixes host "" = "".
Proof. reflexivity. Qed.

(** X7: when [inspect] reports nothing for [typescript.tsdk], both tsdk
    fields are [null]; an override that is the empty string is kept as the
    empty string, on every host: it is a string, so it is not turned into
    [null], and it does not begin with the home prefix. *)
Theorem tsdk_uninspected_or_empty host configuration :
  (inspect configuration "typescript.tsdk" = None →
     extractGlobalTsdk host configuration = None
     ∧ extractLocalTsdk host configuration = None)
  ∧ (∀ result,
       inspect configuration "typescript.tsdk" = Some result →
       (globalValue result = JStr "" →
          extractGlobalTsdk host configuration = Some "")
       ∧ (workspaceValue result = JStr "" →
            extractLocalTsdk host configuration = Some "")).
Proof.
  split.
  - unfold extractGlobalTsdk, extractLocalTsdk. by intros ->.
  - intros result Hinspect. split; intros Hvalue.
    + by rewrite (extractGlobalTsdk_string _ _ result "" Hinspect Hvalue).
    + by rewrite (extractLocalTsdk_string _ _ result "" Hinspect Hvalue).
Qed.

Lemma tsdk_uninspected_or_empty_witness :
  extractGlobalTsdk (posixHost "/home/u")
    {| lookUp := fun _ => JUndefined; inspect := fun _ => None |} = None
  ∧ extractLocalTsdk (posixHost "/home/u")
      (getConfiguration (workspaceOnly "typescript.tsdk" (JStr "")))
    = Some "".
Proof.
  split.
  - apply (tsdk_uninspected_or_empty (posixHost "/home/u")
             {| lookUp := fun _ => JUndefined; inspect := fun _ => None |}).
    reflexivity.
  - eapply (tsdk_uninspected_or_empty (posixHost "/home/u")
              (getConfiguration (workspaceOnly "typescript.tsdk" (JStr ""))));
      reflexivity.
Defined.

(** ** The constructor *)

Lemma bind_Returns_l {A B} (a : A) (f : A → Outcome B) : Returns a ≫= f = f a.
Proof. reflexivity. Qed.

Lemma bind_Throws {A B} (m : Outcome A) (f : A → Outcome B) (e : JsError) :
  m ≫= f = Throws e → m = Throws e ∨ ∃ a, m = Returns a ∧ f a = Throws e.
Proof.
  destruct m as [a| |]; simpl; intros H;
    [eauto | injection H as ->; by left | discriminate].
Qed.

Lemma consumedKeys_Forall (P : string → Prop) :
  (∀ key, key ∈ consumedKeys → P key) → Forall P consumedKeys.
Proof. intros H. by apply Forall_forall. Qed.

Ltac split_keys H :=
  apply consumedKeys_Forall in H; unfold consumedKeys in H;
  repeat (apply Forall_cons in H as [? H]); clear H.

Ltac unfold_readers :=
  unfold loadFromWorkspace, extractLocale, readNpmLocation,
    readTsServerLogLevel, readTsServerPluginPaths, readCheckJs,
    readExperimentalDecorators, readImplicitStrictNullChecks,
    readImplicitStrictFunctionTypes, readDisableAutomaticTypeAcquisition,
    readUseSeparateSyntaxServer, readEnableProjectDiagnostics,
    readMaxTsServerMemory, readEnablePromptUseWorkspaceTsdk, readWatchOptions,
    readIncludePackageJsonAutoImports, getBoolean, getStringOrNull,
    getStringArray, getAutoImports, get, get_.

(** X8: the constructor reads nothing but the 15 keys of [consumedKeys]
    and, of the [inspect] record of [typescript.tsdk], the global and the
    workspace value: on two providers that agree on these it has the same
    outcome, whatever else they hold. *)
Theorem loadFromWorkspace_reads_only host configuration configuration' :
  (∀ key, key ∈ consumedKeys →
     lookUp configuration key = lookUp configuration' key) →
  (fun result => (globalValue result, workspaceValue result))
    <$> inspect configuration "typescript.tsdk"
  = (fun result => (globalValue result, workspaceValue result))
      <$> inspect configuration' "typescript.tsdk" →
  loadFromWorkspace host configuration = loadFromWorkspace host configuration'.
Proof.
  intros Hkeys Hinspect. split_keys Hkeys.
  unfold_readers. unfold extractGlobalTsdk, extractLocalTsdk.
  destruct (inspect configuration "typescript.tsdk") as [result|],
    (inspect configuration' "typescript.tsdk") as [result'|];
    try discriminate Hinspect.
  - injection Hinspect as Hglobal Hworkspace. rewrite Hglobal, Hworkspace.
    repeat match goal with
           | H : lookUp configuration _ = _ |- _ => rewrite H; clear H
           end.
    reflexivity.
  - repeat match goal with
           | H : lookUp configuration _ = _ |- _ => rewrite H; clear H
           end.
    reflexivity.
Qed.

Lemma loadFromWorkspace_reads_only_witness :
  loadFromWorkspace (posixHost "/home/u") (getConfiguration sampleSettingsAndMore)
  = loadFromWorkspace (posixHost "/home/u") (getConfiguration sampleSettings)
  ∧ defaultValue <$> inspect (getConfiguration sampleSettingsAndMore)
                       "typescript.tsdk"
    ≠ defaultValue <$> inspect (getConfiguration sampleSettings)
                         "typescript.tsdk"
  ∧ lookUp (getConfiguration sampleSettingsAndMore) "editor.tabSize"
    ≠ lookUp (getConfiguration sampleSettings) "editor.tabSize".
Proof.
  split; [|split; discriminate].
  apply loadFromWorkspace_reads_only; [|reflexivity].
  intros key Hkey. unfold consumedKeys in Hkey.
  rewrite !elem_of_cons, elem_of_nil in Hkey.
  repeat (destruct Hkey as [->|Hkey]; [reflexivity|]). destruct Hkey.
Defined.

(** X9: when none of the keys is set and no tsdk override is a string,
    the constructor returns the snapshot of the defaults, on every host:
    no locale, tsdk or npm location, log level [Off], no plugin paths,
    the two strict checks on and the other flags off, the separate syntax
    server [Enabled], 3072 MB, no watch options and no auto-import
    preference. *)
Theorem loadFromWorkspace_defaults host configuration :
  (∀ key, key ∈ consumedKeys → lookUp configuration key = JUndefined) →
  (∀ result,
     inspect configuration "typescript.tsdk" = Some result →
     isAString (globalValue result) = false
     ∧ isAString (workspaceValue result) = false) →
  loadFromWorkspace host configuration = Returns defaultSnapshot.
Proof.
  intros Hkeys Hinspect. split_keys Hkeys.
  unfold_readers. unfold extractGlobalTsdk, extractLocalTsdk.
  repeat match goal with
         | H : lookUp configuration _ = _ |- _ => rewrite H; clear H
         end.
  destruct (inspect configuration "typescript.tsdk") as [result|];
    [|reflexivity].
  destruct (Hinspect result eq_refl) as [Hglobal Hworkspace].
  by destruct (globalValue result), (workspaceValue result).
Qed.

Lemma loadFromWorkspace_defaults_witness :
  loadFromWorkspace (posixHost "/home/u")
    (getConfiguration
       {| defaultScope := {[ "typescript.tsdk" := JStr "~/ts" ]};
          globalScope := {[ "typescript.tsdk" := JNull ]};
          workspaceScope := {[ "editor.tabSize" := num 2 ]} |})
  = Returns defaultSnapshot.
Proof.
  apply loadFromWorkspace_defaults.
  - intros key Hkey. unfold consumedKeys in Hkey.
    rewrite !elem_of_cons, elem_of_nil in Hkey.
    repeat (destruct Hkey as [->|Hkey]; [reflexivity|]). destruct Hkey.
  - intros result [= <-]. split; reflexivity.
Defined.

Lemma fromString_string_Returns (s : string) :
  ∃ level, TsServerLogLevel.fromString (JStr s) = Returns level.
Proof.
  rewrite fromString_string. cbv zeta.
  repeat (destruct (String.eqb _ _); [by eexists|]). by eexists.
Qed.

Lemma fromString_Throws (value : JsValue) (e : JsError) :
  TsServerLogLevel.fromString value = Throws e ↔
  e = TypeError "value.toLowerCase is not a function"
  ∧ truthy value = true ∧ isAString value = false.
Proof.
  destruct (isAString value) eqn:Hstring.
  - destruct value as [| | | |s| |]; try discriminate Hstring.
    destruct (fromString_string_Returns s) as [level ->].
    split; [discriminate | by intros (_ & _ & ?)].
  - destruct (truthy value) eqn:Htruthy.
    + unfold TsServerLogLevel.fromString. rewrite Htruthy.
      destruct value; try discriminate; simpl;
        (split; [by intros [= <-] | by intros (-> & _)]).
    + rewrite (fromString_falsy value Htruthy).
      split; [discriminate | by intros (_ & ? & _)].
Qed.

Lemma readTsServerLogLevel_Throws configuration (e : JsError) :
  readTsServerLogLevel configuration = Throws e ↔
  e = TypeError "value.toLowerCase is not a function"
  ∧ truthy (lookUp configuration "typescript.tsserver.log") = true
  ∧ isAString (lookUp configuration "typescript.tsserver.log") = false.
Proof.
  unfold readTsServerLogLevel, get.
  destruct (lookUp configuration "typescript.tsserver.log") eqn:Hraw;
    try apply fromString_Throws.
  split; [discriminate | by intros (_ & ? & _)].
Qed.

Lemma getBoolean_not_Throws configuration section defaultValue e :
  getBoolean configuration section defaultValue ≠ Throws e.
Proof. unfold getBoolean. by destruct (get _ _ _). Qed.

Lemma getStringOrNull_not_Throws configuration section e :
  getStringOrNull configuration section ≠ Throws e.
Proof. unfold getStringOrNull. by destruct (get _ _ _). Qed.

Lemma allStrings_not_Throws section items e :
  allStrings section items ≠ Throws e.
Proof.
  induction items as [|item items IH]; [done|].
  destruct item; try done. simpl.
  by destruct (allStrings section items).
Qed.

Lemma getStringArray_not_Throws configuration section e :
  getStringArray configuration section ≠ Throws e.
Proof.
  unfold getStringArray. destruct (get _ _ _); try done.
  apply allStrings_not_Throws.
Qed.

Lemma getAutoImports_not_Throws configuration section e :
  getAutoImports configuration section ≠ Throws e.
Proof.
  unfold getAutoImports. cbv zeta.
  destruct (get_ _ _); try done;
    repeat (destruct (isString _ _); [done|]); done.
Qed.

(** X10: the constructor throws only through the log level: an exception
    is the [TypeError] of [toLowerCase], and the stored
    [typescript.tsserver.log] is then a truthy value that is no string (a
    number other than zero, [true], an array or an object).  Conversely
    such a log setting makes the constructor throw, here shown when the
    two settings read before it are of their declared type. *)
Theorem loadFromWorkspace_throws host configuration :
  let setting := lookUp configuration "typescript.tsserver.log" in
  (∀ e, loadFromWorkspace host configuration = Throws e →
     e = TypeError "value.toLowerCase is not a function"
     ∧ truthy setting = true ∧ isAString setting = false)
  ∧ (stringNullOrAbsent (lookUp configuration "typescript.locale") = true →
     stringNullOrAbsent (lookUp configuration "typescript.npm") = true →
     truthy setting = true → isAString setting = false →
     loadFromWorkspace host configuration
       = Throws (TypeError "value.toLowerCase is not a function")).
Proof.
  intros setting. split.
  - intros e Hload. unfold loadFromWorkspace in Hload.
    apply bind_Throws in Hload as [H | (? & _ & Hload)];
      [by apply getStringOrNull_not_Throws in H|].
    apply bind_Throws in Hload as [H | (? & _ & Hload)];
      [by apply getStringOrNull_not_Throws in H|].
    apply bind_Throws in Hload as [H | (? & _ & Hload)];
      [by apply readTsServerLogLevel_Throws in H|].
    apply bind_Throws in Hload as [H | (? & _ & Hload)];
      [by apply getStringArray_not_Throws in H|].
    do 5 (apply bind_Throws in Hload as [H | (? & _ & Hload)];
          [by apply getBoolean_not_Throws in H|]).
    do 2 (apply bind_Throws in Hload as [H | (? & _ & Hload)];
          [by apply getBoolean_not_Throws in H|]).
    apply bind_Throws in Hload as [H | (? & _ & Hload)];
      [by apply getAutoImports_not_Throws in H | discriminate Hload].
  - intros Hlocale Hnpm Htruthy Hstring.
    assert (readTsServerLogLevel configuration
              = Throws (TypeError "value.toLowerCase is not a function"))
      as Hlog by (by apply readTsServerLogLevel_Throws).
    unfold loadFromWorkspace. rewrite Hlog.
    unfold extractLocale, readNpmLocation, getStringOrNull, get.
    by destruct (lookUp configuration "typescript.locale"),
         (lookUp configuration "typescript.npm").
Qed.

Lemma loadFromWorkspace_throws_witness :
  loadFromWorkspace (posixHost "/home/u")
    (getConfiguration (workspaceOnly "typescript.tsserver.log" (JBool true)))
  = Throws (TypeError "value.toLowerCase is not a function")
  ∧ truthy (JBool true) = true.
Proof.
  destruct (loadFromWorkspace_throws (posixHost "/home/u")
              (getConfiguration
                 (workspaceOnly "typescript.tsserver.log" (JBool true))))
    as [Honly Hthrows].
  assert (loadFromWorkspace (posixHost "/home/u")
            (getConfiguration
               (workspaceOnly "typescript.tsserver.log" (JBool true)))
          = Throws (TypeError "value.toLowerCase is not a function")) as H.
  { apply Hthrows; reflexivity. }
  split; [exact H | apply (Honly _ H)].
Defined.

Lemma getBoolean_Returns configuration section defaultValue b :
  getBoolean configuration section defaultValue = Returns b →
  get configuration section (JBool defaultValue) = JBool b.
Proof. unfold getBoolean. destruct (get _ _ _); try done. by intros [= ->]. Qed.

Lemma getStringOrNull_Returns configuration section field :
  getStringOrNull configuration section = Returns field →
  get configuration section JNull = nullable field.
Proof.
  unfold getStringOrNull. destruct (get _ _ _); try done; by intros [= <-].
Qed.

Lemma allStrings_Returns section items field :
  allStrings section items = Returns field → items = JStr <$> field.
Proof.
  revert field. induction items as [|item items IH]; intros field.
  - by intros [= <-].
  - destruct item; try done. cbn [allStrings].
    intros (strings & Hrest & [= <-])%bind_Returns.
    by rewrite (IH strings Hrest).
Qed.

Lemma getStringArray_Returns configuration section field :
  getStringArray configuration section = Returns field →
  get configuration section (JArr []) = stringArray field.
Proof.
  unfold getStringArray, stringArray. destruct (get _ _ _); try done.
  by intros ->%allStrings_Returns.
Qed.

Lemma isString_inv (v : JsValue) (literal : string) :
  isString v literal = true → v = JStr literal.
Proof. destruct v; try done. by intros ->%String.eqb_eq. Qed.

Lemma getAutoImports_Returns configuration section field :
  getAutoImports configuration section = Returns field →
  get_ configuration section = autoImportsValue field.
Proof.
  unfold getAutoImports. cbv zeta.
  destruct (isString (get_ configuration section) "auto") eqn:Hauto;
    [apply isString_inv in Hauto as ->; by intros [= <-]|].
  destruct (isString (get_ configuration section) "on") eqn:Hon;
    [apply isString_inv in Hon as ->; by intros [= <-]|].
  destruct (isString (get_ configuration section) "off") eqn:Hoff;
    [apply isString_inv in Hoff as ->; by intros [= <-]|].
  destruct (get_ configuration section); try done. by intros [= <-].
Qed.

Lemma loadFromWorkspace_fields host configuration a :
  loadFromWorkspace host configuration = Returns a →
  get configuration "typescript.locale" JNull = nullable (locale a)
  ∧ get configuration "typescript.npm" JNull = nullable (npmLocation a)
  ∧ get configuration "typescript.tsserver.pluginPaths" (JArr [])
    = stringArray (tsServerPluginPaths a)
  ∧ get configuration "javascript.implicitProjectConfig.checkJs" (JBool false)
    = JBool (checkJs a)
  ∧ get configuration "javascript.implicitProjectConfig.experimentalDecorators"
      (JBool false)
    = JBool (experimentalDecorators a)
  ∧ get configuration "js/ts.implicitProjectConfig.strictNullChecks"
      (JBool true)
    = JBool (implicitStrictNullChecks a)
  ∧ get configuration "js/ts.implicitProjectConfig.strictFunctionTypes"
      (JBool true)
    = JBool (implicitStrictFunctionTypes a)
  ∧ get configuration "typescript.disableAutomaticTypeAcquisition"
      (JBool false)
    = JBool (disableAutomaticTypeAcquisition a)
  ∧ get configuration
      "typescript.tsserver.experimental.enableProjectDiagnostics" (JBool false)
    = JBool (enableProjectDiagnostics a)
  ∧ get configuration "typescript.enablePromptUseWorkspaceTsdk" (JBool false)
    = JBool (enablePromptUseWorkspaceTsdk a)
  ∧ get_ configuration "typescript.tsserver.watchOptions" = watchOptions a
  ∧ get_ configuration "typescript.preferences.includePackageJsonAutoImports"
    = autoImportsValue (includePackageJsonAutoImports a).
Proof.
  intros Hload. unfold loadFromWorkspace in Hload.
  apply bind_Returns in Hload as (? & Hlocale%getStringOrNull_Returns & Hload).
  apply bind_Returns in Hload as (? & Hnpm%getStringOrNull_Returns & Hload).
  apply bind_Returns in Hload as (? & _ & Hload).
  apply bind_Returns in Hload as (? & Hpaths%getStringArray_Returns & Hload).
  apply bind_Returns in Hload as (? & HcheckJs%getBoolean_Returns & Hload).
  apply bind_Returns in Hload as (? & Hdecorators%getBoolean_Returns & Hload).
  apply bind_Returns in Hload as (? & Hnull%getBoolean_Returns & Hload).
  apply bind_Returns in Hload as (? & Hfunction%getBoolean_Returns & Hload).
  apply bind_Returns in Hload as (? & Hacquisition%getBoolean_Returns & Hload).
  apply bind_Returns in Hload as (? & Hdiagnostics%getBoolean_Returns & Hload).
  apply bind_Returns in Hload as (? & Hprompt%getBoolean_Returns & Hload).
  apply bind_Returns in Hload as (? & Hauto%getAutoImports_Returns & Hload).
  injection Hload as <-. cbn.
  by repeat split.
Qed.

Lemma getBoolean_wellTyped configuration section defaultValue :
  booleanOrAbsent (lookUp configuration section) = true →
  ∃ b, getBoolean configuration section defaultValue = Returns b.
Proof.
  unfold getBoolean, get.
  destruct (lookUp configuration section); try done; by eexists.
Qed.

Lemma getStringOrNull_wellTyped configuration section :
  stringNullOrAbsent (lookUp configuration section) = true →
  ∃ field, getStringOrNull configuration section = Returns field.
Proof.
  unfold getStringOrNull, get.
  destruct (lookUp configuration section); try done; by eexists.
Qed.

Lemma allStrings_wellTyped section items :
  forallb (fun item => match item with JStr _ => true | _ => false end) items
    = true →
  ∃ field, allStrings section items = Returns field.
Proof.
  induction items as [|item items IH]; [by eexists|].
  cbn [forallb]. intros [Hitem Hitems]%andb_true_iff.
  destruct item; try done. destruct (IH Hitems) as [field Hfield].
  cbn [allStrings]. rewrite Hfield. by eexists.
Qed.

Lemma getStringArray_wellTyped configuration section :
  stringArrayOrAbsent (lookUp configuration section) = true →
  ∃ field, getStringArray configuration section = Returns field.
Proof.
  unfold getStringArray, get.
  destruct (lookUp configuration section); try done; [by eexists|].
  apply allStrings_wellTyped.
Qed.

Lemma getAutoImports_wellTyped configuration section :
  autoImportsOrAbsent (lookUp configuration section) = true →
  ∃ field, getAutoImports configuration section = Returns field.
Proof.
  unfold getAutoImports, get_, autoImportsOrAbsent.
  destruct (lookUp configuration section) as [| | | |s| |]; try done;
    [by eexists|].
  cbv zeta.
  repeat (destruct (isString (JStr s) _); [by eexists|]). done.
Qed.

Lemma readTsServerLogLevel_wellTyped configuration :
  stringOrAbsent (lookUp configuration "typescript.tsserver.log") = true →
  ∃ level, readTsServerLogLevel configuration = Returns level.
Proof.
  unfold readTsServerLogLevel, get.
  destruct (lookUp configuration _) as [| | | |s| |]; try done.
  - by eexists.
  - intros _. apply fromString_string_Returns.
Qed.

(** X12: on settings each of which is absent or of the type the source
    declares for its read, the constructor returns a snapshot: it does
    not throw. *)
Theorem loadFromWorkspace_wellTyped host configuration :
  wellTyped configuration = true →
  ∃ a, loadFromWorkspace host configuration = Returns a.
Proof.
  unfold wellTyped. rewrite !andb_true_iff.
  intros (((((((((((Hlocale & Hnpm) & Hlog) & Hpaths) & HcheckJs)
    & Hdecorators) & Hnull) & Hfunction) & Hacquisition) & Hdiagnostics)
    & Hprompt) & Hauto).
  unfold loadFromWorkspace, extractLocale, readNpmLocation,
    readTsServerPluginPaths, readCheckJs, readExperimentalDecorators,
    readImplicitStrictNullChecks, readImplicitStrictFunctionTypes,
    readDisableAutomaticTypeAcquisition, readEnableProjectDiagnostics,
    readEnablePromptUseWorkspaceTsdk, readIncludePackageJsonAutoImports.
  destruct (getStringOrNull_wellTyped _ _ Hlocale) as [? ->].
  destruct (getStringOrNull_wellTyped _ _ Hnpm) as [? ->].
  destruct (readTsServerLogLevel_wellTyped _ Hlog) as [? ->].
  destruct (getStringArray_wellTyped _ _ Hpaths) as [? ->].
  destruct (getBoolean_wellTyped _ _ false HcheckJs) as [? ->].
  destruct (getBoolean_wellTyped _ _ false Hdecorators) as [? ->].
  destruct (getBoolean_wellTyped _ _ true Hnull) as [? ->].
  destruct (getBoolean_wellTyped _ _ true Hfunction) as [? ->].
  destruct (getBoolean_wellTyped _ _ false Hacquisition) as [? ->].
  destruct (getBoolean_wellTyped _ _ false Hdiagnostics) as [? ->].
  destruct (getBoolean_wellTyped _ _ false Hprompt) as [? ->].
  destruct (getAutoImports_wellTyped _ _ Hauto) as [? ->].
  rewrite !bind_Returns_l. by eexists.
Qed.

Lemma loadFromWorkspace_wellTyped_witness :
  ∃ a, loadFromWorkspace (posixHost "/home/u")
         (getConfiguration sampleSettingsAndMore) = Returns a.
Proof.
  apply (loadFromWorkspace_wellTyped (posixHost "/home/u")
           (getConfiguration sampleSettingsAndMore)).
  reflexivity.
Defined.

(** ** What [isEqualTo] tells about the settings *)

Lemma loadFromWorkspace_resolved host configuration a :
  loadFromWorkspace host configuration = Returns a →
  globalTsdk a = extractGlobalTsdk host configuration
  ∧ localTsdk a = extractLocalTsdk host configuration
  ∧ readTsServerLogLevel configuration = Returns (tsServerLogLevel a)
  ∧ separateSyntaxServer a = readUseSeparateSyntaxServer configuration
  ∧ maxTsServerMemory a = readMaxTsServerMemory configuration.
Proof.
  intros Hload. unfold loadFromWorkspace in Hload.
  do 2 (apply bind_Returns in Hload as (? & _ & Hload)).
  apply bind_Returns in Hload as (? & Hlog & Hload).
  repeat (apply bind_Returns in Hload as (? & _ & Hload)).
  injection Hload as <-. by cbn.
Qed.

Lemma get_default_undefined configuration section :
  get configuration section JUndefined = lookUp configuration section.
Proof. unfold get. by destruct (lookUp configuration section). Qed.

Lemma nullable_inj (x y : option string) : nullable x = nullable y → x = y.
Proof. destruct x, y; simpl; congruence. Qed.

Lemma stringArray_inj (x y : list string) :
  stringArray x = stringArray y → x = y.
Proof.
  unfold stringArray. intros [= H]. revert y H.
  induction x as [|s x IH]; intros [|t y]; try done.
  intros [= -> H]. f_equal. by apply IH.
Qed.

Lemma autoImportsValue_inj (x y : option AutoImports.t) :
  autoImportsValue x = autoImportsValue y → x = y.
Proof. by destruct x as [[]|], y as [[]|]. Qed.

(** X13: on two snapshots returned for two states of the settings on one
    host, [isEqualTo] is true exactly when the states resolve alike: [get]
    returns the same value, defaults applied, for each directly read key,
    the two tsdk overrides resolve to the same paths, the log level, the
    syntax-server choice and the memory bound resolve to the same values,
    and the watch options are the same up to the order of object keys.
    A change in a setting that moves none of these is not reported, and a
    change that moves one of them always is. *)
Theorem isEqualTo_on_settings host configuration configuration' a b :
  wellFormed (lookUp configuration "typescript.tsserver.watchOptions") = true →
  loadFromWorkspace host configuration = Returns a →
  loadFromWorkspace host configuration' = Returns b →
  isEqualTo a b = true ↔
    (∀ key defaultValue, (key, defaultValue) ∈ directReads →
       get configuration key defaultValue = get configuration' key defaultValue)
    ∧ extractGlobalTsdk host configuration
      = extractGlobalTsdk host configuration'
    ∧ extractLocalTsdk host configuration = extractLocalTsdk host configuration'
    ∧ readTsServerLogLevel configuration = readTsServerLogLevel configuration'
    ∧ readUseSeparateSyntaxServer configuration
      = readUseSeparateSyntaxServer configuration'
    ∧ readMaxTsServerMemory configuration = readMaxTsServerMemory configuration'
    ∧ unordered (lookUp configuration "typescript.tsserver.watchOptions")
      = unordered (lookUp configuration' "typescript.tsserver.watchOptions").
Proof.
  intros Hoptions Ha Hb.
  rewrite (isEqualTo_agree a b (loadFromWorkspace_constructed _ _ _ Hoptions Ha)).
  destruct (loadFromWorkspace_fields _ _ _ Ha)
    as (Ha1 & Ha2 & Ha3 & Ha4 & Ha5 & Ha6 & Ha7 & Ha8 & Ha9 & Ha10 & Ha11 & Ha12).
  destruct (loadFromWorkspace_fields _ _ _ Hb)
    as (Hb1 & Hb2 & Hb3 & Hb4 & Hb5 & Hb6 & Hb7 & Hb8 & Hb9 & Hb10 & Hb11 & Hb12).
  destruct (loadFromWorkspace_resolved _ _ _ Ha)
    as (Ha13 & Ha14 & Ha15 & Ha16 & Ha17).
  destruct (loadFromWorkspace_resolved _ _ _ Hb)
    as (Hb13 & Hb14 & Hb15 & Hb16 & Hb17).
  unfold get_ in *.
  rewrite <- (get_default_undefined configuration) in Ha12.
  rewrite <- (get_default_undefined configuration') in Hb12.
  rewrite Ha11, Hb11, <- Ha13, <- Hb13, <- Ha14, <- Hb14, Ha15, Hb15,
    <- Ha16, <- Hb16, <- Ha17, <- Hb17.
  split.
  - intros H. split; [|repeat split].
    + intros key defaultValue Hin. unfold directReads in Hin.
      rewrite !elem_of_cons, elem_of_nil in Hin.
      repeat (destruct Hin as [[= -> ->]|Hin];
              [first [ rewrite Ha1, Hb1, (H Locale)
                     | rewrite Ha2, Hb2, (H NpmLocation)
                     | rewrite Ha3, Hb3, (H PluginPaths)
                     | rewrite Ha4, Hb4, (H CheckJs)
                     | rewrite Ha5, Hb5, (H ExperimentalDecorators)
                     | rewrite Ha6, Hb6, (H ImplicitStrictNullChecks)
                     | rewrite Ha7, Hb7, (H ImplicitStrictFunctionTypes)
                     | rewrite Ha8, Hb8, (H DisableAutomaticTypeAcquisition)
                     | rewrite Ha9, Hb9, (H EnableProjectDiagnostics)
                     | rewrite Ha10, Hb10, (H EnablePromptUseWorkspaceTsdk)
                     | rewrite Ha12, Hb12, (H IncludePackageJsonAutoImports) ];
               reflexivity|]).
      destruct Hin.
    + apply (H GlobalTsdk).
    + apply (H LocalTsdk).
    + f_equal. apply (H LogLevel).
    + apply (H SeparateSyntaxServer).
    + apply (H MaxTsServerMemoryMB).
    + apply (H WatchOptions).
  - intros (Hdirect & Hglobal & Hlocal & Hlog & Hsyntax & Hmemory & Hwatch).
    assert (Forall (fun read => get configuration read.1 read.2
                                = get configuration' read.1 read.2)
              directReads) as Hreads.
    { apply Forall_forall. intros [key defaultValue]. apply Hdirect. }
    unfold directReads in Hreads.
    repeat (apply Forall_cons in Hreads as [? Hreads]). clear Hreads.
    cbn [fst snd] in *.
    intros f. destruct f; cbn [agreeOn]; try done;
      first [ apply nullable_inj | apply stringArray_inj
            | apply autoImportsValue_inj | idtac ];
      congruence.
Qed.

Lemma isEqualTo_on_settings_witness :
  readMaxTsServerMemory (getConfiguration sampleSettings)
  = readMaxTsServerMemory (getConfiguration sampleSettingsAndMore)
  ∧ isEqualTo sampleSnapshot defaultSnapshot = false.
Proof.
  split.
  - apply (isEqualTo_on_settings (posixHost "/home/u")
             (getConfiguration sampleSettings)
             (getConfiguration sampleSettingsAndMore)
             sampleSnapshot sampleSnapshot eq_refl eq_refl eq_refl).
    reflexivity.
  - apply not_true_is_false. intros Hequal.
    apply (isEqualTo_on_settings (posixHost "/home/u")
             (getConfiguration sampleSettings) (getConfiguration noSettings)
             sampleSnapshot defaultSnapshot eq_refl eq_refl eq_refl)
      in Hequal as (_ & _ & _ & _ & _ & Hmemory & _).
    discriminate Hmemory.
Defined.
